(** * npipe: named-pipe connections, listeners and dialers

  A shallow embedding of the Go package [npipe] (Windows named pipes behind
  the [net.Conn] / [net.Listener] interfaces) and the properties of its
  error handling, address validation and accept state machine.

  Conventions of the embedding:
  - a Go [string] is a sequence of bytes: [string] of [Stdlib.Strings];
  - [uint32], [int], [uintptr], [windows.Handle], [time.Time] and
    [time.Duration] are [Z], with the wrap-around or saturation of the Go
    operation written out where the code converts or subtracts;
  - a Go [error] is [option error]: [None] is [nil];
  - the operating system is an oracle: every function takes the answers of
    the system calls it makes as a record and returns, next to its result,
    the trace of the calls it issued. *)

From Stdlib Require Import ZArith List String Ascii Bool Lia DecimalString.
Import ListNotations.

Local Open Scope string_scope.
Local Open Scope Z_scope.

(** ** Pieces of the Go runtime and standard library the package uses *)

Module Go.

(** The double quote, for messages that quote an argument. *)
Definition dq : string := String (ascii_of_nat 34) EmptyString.

(** The separator of pipe paths. *)
Definition backslash : ascii := ascii_of_nat 92.

(** [%d] of an integer. *)
Definition itoa (z : Z) : string := NilZero.string_of_int (Z.to_int z).

(** [uint32(x)]: conversion to 32 bits wraps. *)
Definition uint32 (x : Z) : Z := x mod 2 ^ 32.

(** Arithmetic on [int64] (and on [time.Duration]) wraps into the signed
    64-bit range. *)
Definition int64 (x : Z) : Z := (x + 2 ^ 63) mod 2 ^ 64 - 2 ^ 63.

(** [int(x)], for the 64-bit targets of the package. *)
Definition int (x : Z) : Z := int64 x.

(** [time.Duration] is a signed 64-bit count of nanoseconds. *)
Definition minDuration : Z := - 2 ^ 63.
Definition maxDuration : Z := 2 ^ 63 - 1.
Definition Millisecond : Z := 1000000.

(** [t.Sub(u)]: the difference, saturated to the range of a Duration. *)
Definition Sub (t u : Z) : Z :=
  let d := t - u in
  if d <? minDuration then minDuration
  else if maxDuration <? d then maxDuration
  else d.

(** [t.Add(d)] and [t.Before(u)] on instants counted in nanoseconds. *)
Definition Add (t d : Z) : Z := t + d.
Definition Before (t u : Z) : bool := t <? u.

(** The zero [time.Time] (January 1, year 1, UTC), in nanoseconds relative
    to the Unix epoch. *)
Definition zeroTime : Z := -62135596800 * 1000000000.

(** [strings.Split(s, sep)] for a one-byte separator: the pieces of [s]
    between the occurrences of [sep]; never empty. *)
Fixpoint Split (s : string) (sep : ascii) : list string :=
  match s with
  | EmptyString => [EmptyString]
  | String c rest =>
      if Ascii.eqb c sep then EmptyString :: Split rest sep
      else match Split rest sep with
           | hd :: tl => String c hd :: tl
           | [] => [String c EmptyString]
           end
  end.

Fixpoint mapBytes (f : ascii -> ascii) (s : string) : string :=
  match s with
  | EmptyString => EmptyString
  | String c rest => String (f c) (mapBytes f rest)
  end.

Fixpoint allBytes (f : ascii -> bool) (s : string) : bool :=
  match s with
  | EmptyString => true
  | String c rest => f c && allBytes f rest
  end.

(** A byte below [utf8.RuneSelf]. *)
Definition isASCII (c : ascii) : bool := (nat_of_ascii c <? 128)%nat.

Definition isUpper (c : ascii) : bool :=
  ((65 <=? nat_of_ascii c) && (nat_of_ascii c <=? 90))%nat.

Definition lowerByte (c : ascii) : ascii :=
  if isUpper c then ascii_of_nat (nat_of_ascii c + 32) else c.

(** [strings.ToLower]: on a string of ASCII bytes only, the letters A to Z
    are shifted to lower case byte by byte; any other string is mapped rune
    by rune with [unicode.ToLower], which is the parameter [unicodeLower]. *)
Definition ToLower (unicodeLower : string -> string) (s : string) : string :=
  if allBytes isASCII s then mapBytes lowerByte s else unicodeLower s.

(** [windows.UTF16PtrFromString]: fails with EINVAL when the string holds a
    NUL byte; otherwise the pointer stands for the string itself. *)
Definition hasNUL (s : string) : bool :=
  negb (allBytes (fun c => negb (Ascii.eqb c zero)) s).

End Go.

(** ** Status codes and flags of the platform ([golang.org/x/sys/windows]) *)

Module Windows.

Definition ERROR_FILE_NOT_FOUND : Z := 2.
Definition ERROR_BROKEN_PIPE : Z := 109.
Definition ERROR_SEM_TIMEOUT : Z := 121.
Definition ERROR_BAD_PATHNAME : Z := 161.
Definition ERROR_PIPE_BUSY : Z := 231.
Definition ERROR_NO_DATA : Z := 232.
Definition ERROR_PIPE_CONNECTED : Z := 535.
Definition ERROR_OPERATION_ABORTED : Z := 995.
Definition ERROR_IO_INCOMPLETE : Z := 996.
Definition ERROR_IO_PENDING : Z := 997.

Definition PIPE_ACCESS_DUPLEX : Z := 3.
Definition FILE_FLAG_OVERLAPPED : Z := 1073741824.
Definition FILE_FLAG_FIRST_PIPE_INSTANCE : Z := 524288.
Definition PIPE_TYPE_BYTE : Z := 0.
Definition PIPE_UNLIMITED_INSTANCES : Z := 255.
Definition GENERIC_READ : Z := 2147483648.
Definition GENERIC_WRITE : Z := 1073741824.
Definition FILE_SHARE_READ : Z := 1.
Definition FILE_SHARE_WRITE : Z := 2.
Definition OPEN_EXISTING : Z := 3.
Definition INFINITE : Z := 4294967295.

End Windows.

(** ** Errors *)

(** [PipeError]: an error related to a call to a pipe; the field [timeout]
    of the struct is [timeout_flag], the name [timeout] being that of the
    constructor function below. *)
Record PipeError : Type := mkPipeError { msg : string; timeout_flag : bool }.

(** The dynamic types an [error] of this package can hold: a status code of
    the platform ([windows.Errno]), the value of a [fmt.Errorf] without the
    verb w (a pointer to a fresh string, never [==] to a status code), a
    [PipeError], and [io.EOF]. *)
Inductive error : Type :=
| Errno (code : Z)
| ErrorString (text : string)
| PipeErr (e : PipeError)
| EOF.

(** [ErrClosed]: returned by Accept when Close is called on the listener. *)
Definition ErrClosed : PipeError := mkPipeError "Pipe has been closed." false.

Definition PipeError_Error (e : PipeError) : string := msg e.
Definition PipeError_Timeout (e : PipeError) : bool := timeout_flag e.
Definition PipeError_Temporary (e : PipeError) : bool := false.

(** [err == windows.ERROR_X]: true only of the status code itself. *)
Definition isErrno (err : option error) (code : Z) : bool :=
  match err with
  | Some (Errno c) => c =? code
  | _ => false
  end.

(** An error is timeout-flagged when it is a [PipeError] whose [Timeout()]
    reports true: the timeout outcome of this package. An error built by
    [fmt.Errorf] has no [Timeout()] method, and the status codes the platform
    reports for a pipe are not timeouts of [syscall.Errno]. *)
Definition timeoutFlagged (err : option error) : bool :=
  match err with
  | Some (PipeErr e) => PipeError_Timeout e
  | _ => false
  end.

Definition isEOF (err : option error) : bool :=
  match err with
  | Some EOF => true
  | _ => false
  end.

Definition isPipeError (err : option error) : bool :=
  match err with
  | Some (PipeErr _) => true
  | _ => false
  end.

Definition badAddr (addr : string) : PipeError :=
  mkPipeError ("Invalid pipe address '" ++ addr ++ "'.") false.

Definition timeout (addr : string) : PipeError :=
  mkPipeError ("Pipe IO timed out waiting for '" ++ addr ++ "'") true.

(** [PipeAddr.String]. *)
Definition PipeAddr_String (a : string) : string := a.
Definition PipeAddr_Network (a : string) : string := "pipe".

Section Npipe.

(** [Errno.Error()]: the text the platform gives for a status code. *)
Variable errnoText : Z -> string.

(** [unicode.ToLower] mapped over a string that has non-ASCII bytes. *)
Variable unicodeLower : string -> string.

(** [net.ParseIP]: the address, or nil when the text is not an IP. *)
Variable ParseIP : string -> option (list Z).

(** The value of [windows.EINVAL]. *)
Variable EINVAL : Z.

(** [err.Error()], which [%s] prints. *)
Definition Error (e : error) : string :=
  match e with
  | Errno c => errnoText c
  | ErrorString s => s
  | PipeErr p => PipeError_Error p
  | EOF => "EOF"
  end.

(** *** Address validation *)

Definition ValidatePipeAddress (address : string) : option error :=
  let p := Go.Split address Go.backslash in
  if (List.length p <? 5)%nat then
    Some (ErrorString
      ("npipe.ValidatePipeAddress(): expected at least 5 parts from pipe address "
       ++ Go.dq ++ address ++ Go.dq ++ " but received "
       ++ Go.itoa (Z.of_nat (List.length p)) ++ ". Example: \\.\pipe\srvsvc"))
  else
    let host := nth 2 p "" in
    let hostErr :=
      if String.eqb host "." then None
      else match ParseIP host with
           | None => Some (ErrorString
               ("npipe.ValidatePipeAddress(): invalid IP address "
                ++ Go.dq ++ host ++ Go.dq))
           | Some _ => None
           end in
    match hostErr with
    | Some e => Some e
    | None =>
        if String.eqb (Go.ToLower unicodeLower (nth 3 p "")) "pipe" then None
        else Some (ErrorString
               ("npipe.ValidatePipeAddress(): expected " ++ Go.dq ++ "pipe"
                ++ Go.dq ++ " but received " ++ Go.dq ++ nth 3 p "" ++ Go.dq))
    end.

(** *** Calls to the operating system, as they appear in a trace *)

Inductive Event : Type :=
| EvCreateEvent
| EvCloseHandle (h : Z)
| EvReadFile (h : Z) (len : nat)
| EvWriteFile (h : Z) (b : list Byte.byte)
| EvWaitForSingleObject (event : Z)
| EvGetOverlappedResult (h : Z)
| EvCancelIoEx (h : Z)
| EvTimeAfter (d : Z)
| EvWaitNamedPipe (name : string) (timeout : Z)
| EvCreateFile (name : string)
| EvCreateNamedPipe (name : string) (openMode pipeMode maxInstances
                     outBuffer inBuffer timeout : Z) (sa : option Z)
| EvConnectNamedPipe (h : Z)
| EvDisconnectNamedPipe (h : Z).

(** What a call that may wait forever does: it returns, or it never does. *)
Inductive outcome (A : Type) : Type :=
| Returned (a : A)
| Blocked.
#[global] Arguments Returned {A} a.
#[global] Arguments Blocked {A}.

(** *** Connections *)

(** [PipeConn]: a named-pipe connection; a nil deadline is [None]. *)
Record PipeConn : Type := mkPipeConn {
  handle : Z;
  addr : string;
  readDeadline : option Z;
  writeDeadline : option Z
}.

(** Modelled from the spec: the declaration of the struct [iodata] is not in
    the source files; the spec's completion outcome (bytes transferred, status
    code) and the uses [iodata{n, err}], [data.n] and [data.err] give its two
    fields, a [uint32] and an [error]. *)
Record iodata : Type := mkIodata { n : Z; err : option error }.

(** The answers of [WaitForSingleObject] and [GetOverlappedResult]. *)
Record WaitOS : Type := mkWaitOS {
  wait_err : option Z;
  transferred : Z;
  result_err : option Z
}.

(** [newOverlapped]: [CreateEvent] answers with an event handle ([inl]) or a
    status code ([inr]). *)
Definition newOverlapped (ce : Z + Z) : Z + error :=
  match ce with
  | inl event => inl event
  | inr e => inr (ErrorString
      ("npipe.newOverlapped(): there was an error callling WINAPI CreateEvent: "
       ++ Error (Errno e)))
  end.

(** The two errors [waitForCompletion] builds with [fmt.Errorf]. *)
Definition waitFailure (e : error) : error :=
  ErrorString
    ("npipe.waitForCompletion(): there was an error calling WINAPI WaitForSingleObject: "
     ++ Error e).

Definition overlappedResultFailure (e : error) : error :=
  ErrorString
    ("npipe.waitForCompletion(): there was an error calling WINAPI GetOverlappedResult: "
     ++ Error e).

Definition waitForCompletion (h : Z) (event : Z) (os : WaitOS)
  : list Event * (Z * option error) :=
  match wait_err os with
  | Some e => ([EvWaitForSingleObject event], (0, Some (waitFailure (Errno e))))
  | None =>
      ([EvWaitForSingleObject event; EvGetOverlappedResult h],
       match result_err os with
       | Some e => (transferred os, Some (overlappedResultFailure (Errno e)))
       | None => (transferred os, None)
       end)
  end.

(** The answers a [Read] or [Write] gets: the event, the status of the issued
    operation, the clock, and for an operation left pending the instant its
    wait delivers (with what) or [None] when it never does; [io_tie] says
    whether the completion wins when it and the timer are ready at once. *)
Record IoOS : Type := mkIoOS {
  io_event : (Z + Z)%type;
  io_issue : (Z * option Z)%type;
  io_now : Z;
  io_completion : option (Z * WaitOS);
  io_tie : bool
}.

Inductive selected : Type :=
| SelDone (w : WaitOS)
| SelTimer
| SelNever.

(** [select] over the channel [done] and the channel [timer]; a nil timer
    never delivers. *)
Definition selectDoneOrTimer (timer : option Z)
    (completion : option (Z * WaitOS)) (tie : bool) : selected :=
  match timer, completion with
  | None, None => SelNever
  | None, Some (_, w) => SelDone w
  | Some _, None => SelTimer
  | Some fire, Some (t, w) =>
      if t <? fire then SelDone w
      else if fire <? t then SelTimer
      else if tie then SelDone w else SelTimer
  end.

(** The timer of [completeRequest]: armed only for a deadline that lies
    after the current instant; it fires [timeDiff] after that instant. *)
Definition armTimer (deadline : option Z) (now : Z) : option Z :=
  match deadline with
  | None => None
  | Some d =>
      let timeDiff := Go.Sub d now in
      if 0 <? timeDiff then Some (now + timeDiff) else None
  end.

Definition isPending (e : option error) : bool :=
  isErrno e Windows.ERROR_IO_INCOMPLETE || isErrno e Windows.ERROR_IO_PENDING.

(** The closing step of [completeRequest]: broken pipe becomes [io.EOF]. *)
Definition brokenPipeToEOF (data : iodata) : Z * option error :=
  (Go.int (n data),
   if isErrno (err data) Windows.ERROR_BROKEN_PIPE then Some EOF else err data).

Definition completeRequest (c : PipeConn) (data : iodata)
    (deadline : option Z) (event : Z) (os : IoOS)
  : list Event * outcome (Z * option error) :=
  if isPending (err data) then
    let timer := armTimer deadline (io_now os) in
    let spawned :=
      match timer with
      | Some fire => [EvTimeAfter (fire - io_now os)]
      | None => []
      end in
    match selectDoneOrTimer timer (io_completion os) (io_tie os) with
    | SelDone w =>
        let '(tr, (n', err')) := waitForCompletion (handle c) event w in
        ((spawned ++ tr)%list, Returned (brokenPipeToEOF (mkIodata n' err')))
    | SelTimer =>
        ((spawned ++ [EvWaitForSingleObject event; EvCancelIoEx (handle c)])%list,
         Returned (brokenPipeToEOF
           (mkIodata 0 (Some (PipeErr (timeout (PipeAddr_String (addr c))))))))
    | SelNever => ((spawned ++ [EvWaitForSingleObject event])%list, Blocked)
    end
  else ([], Returned (brokenPipeToEOF data)).

(** The deferred [CloseHandle] of the event runs when the call returns. *)
Definition withDeferredClose {A : Type} (event : Z)
    (r : list Event * outcome A) : list Event * outcome A :=
  match r with
  | (tr, Returned a) => ((tr ++ [EvCloseHandle event])%list, Returned a)
  | (tr, Blocked) => (tr, Blocked)
  end.

Definition Read (c : PipeConn) (b : list Byte.byte) (os : IoOS)
  : list Event * outcome (Z * option error) :=
  match newOverlapped (io_event os) with
  | inr e =>
      ([EvCreateEvent],
       Returned (0, Some (ErrorString ("npipe.PipeConn.Read(): " ++ Error e))))
  | inl event =>
      let '(tr, r) :=
        withDeferredClose event
          (completeRequest c
             (mkIodata (fst (io_issue os)) (option_map Errno (snd (io_issue os))))
             (readDeadline c) event os) in
      (EvCreateEvent :: EvReadFile (handle c) (List.length b) :: tr, r)
  end.

Definition Write (c : PipeConn) (b : list Byte.byte) (os : IoOS)
  : list Event * outcome (Z * option error) :=
  match newOverlapped (io_event os) with
  | inr e =>
      ([EvCreateEvent],
       Returned (0, Some (ErrorString ("npipe.PipeConn.Write(): " ++ Error e))))
  | inl event =>
      let '(tr, r) :=
        withDeferredClose event
          (completeRequest c
             (mkIodata (fst (io_issue os)) (option_map Errno (snd (io_issue os))))
             (writeDeadline c) event os) in
      (EvCreateEvent :: EvWriteFile (handle c) b :: tr, r)
  end.

Definition PipeConn_Close (c : PipeConn) (close_err : option Z)
  : list Event * option error :=
  ([EvCloseHandle (handle c)], option_map Errno close_err).

Definition LocalAddr (c : PipeConn) : string := addr c.
Definition RemoteAddr (c : PipeConn) : string := addr c.

Definition SetReadDeadline (c : PipeConn) (t : Z) : PipeConn * option error :=
  (mkPipeConn (handle c) (addr c) (Some t) (writeDeadline c), None).

Definition SetWriteDeadline (c : PipeConn) (t : Z) : PipeConn * option error :=
  (mkPipeConn (handle c) (addr c) (readDeadline c) (Some t), None).

Definition SetDeadline (c : PipeConn) (t : Z) : PipeConn * option error :=
  match SetReadDeadline c t with
  | (c1, Some e) =>
      (c1, Some (ErrorString ("npipe.PipeConn.SetDeadline(): " ++ Error e)))
  | (c1, None) =>
      match SetWriteDeadline c1 t with
      | (c2, Some e) =>
          (c2, Some (ErrorString ("npipe.PipeConn.SetDeadline(): " ++ Error e)))
      | (c2, None) => (c2, None)
      end
  end.

(** *** Dialing *)

(** The answers one attempt to connect gets: the return value of
    [WaitNamedPipeW] and the last-error code that comes with it, then the
    handle and the status of [CreateFile]. *)
Record DialOS : Type := mkDialOS {
  wnp_ret : Z;
  wnp_lasterr : Z;
  cf_handle : Z;
  cf_err : option Z
}.

(** [windows.UTF16PtrFromString]. *)
Definition UTF16PtrFromString (s : string) : string + error :=
  if Go.hasNUL s then inr (Errno EINVAL) else inl s.

(** The error [waitNamedPipe] builds with [fmt.Errorf]. *)
Definition waitNamedPipeFailure (ret : Z) (e : error) : error :=
  ErrorString
    ("npipe.waitNamedPipe(): there was an error calling the Windows API function WaitNamedPipeW with return code "
     ++ Go.itoa ret ++ ": " ++ Error e).

Definition waitNamedPipe (name : string) (timeout : Z) (os : DialOS)
  : option error :=
  if negb (wnp_lasterr os =? 0) then
    Some (waitNamedPipeFailure (wnp_ret os) (Errno (wnp_lasterr os)))
  else None.

Definition isPipeNotReady (e : option error) : bool :=
  isErrno e Windows.ERROR_FILE_NOT_FOUND || isErrno e Windows.ERROR_PIPE_BUSY.

Definition createFileFailure (e : error) : error :=
  ErrorString
    ("npipe.dial(): there was an error calling WINAPI CreateFile: " ++ Error e).

Definition utf16Failure (address : string) (e : error) : error :=
  ErrorString ("npipe.dial(): there was an error converting " ++ Go.dq
               ++ address ++ Go.dq ++ " to a UTF16 pointer: " ++ Error e).

Definition dial (address : string) (timeout : Z) (os : DialOS)
  : list Event * (PipeConn + error) :=
  match UTF16PtrFromString address with
  | inr e => ([], inr (utf16Failure address e))
  | inl name =>
      match waitNamedPipe name timeout os with
      | Some e =>
          ([EvWaitNamedPipe name timeout],
           if isErrno (Some e) Windows.ERROR_BAD_PATHNAME
           then inr (PipeErr (badAddr address))
           else inr e)
      | None =>
          match UTF16PtrFromString address with
          | inr e => ([EvWaitNamedPipe name timeout], inr (utf16Failure address e))
          | inl pathp =>
              ([EvWaitNamedPipe name timeout; EvCreateFile pathp],
               match cf_err os with
               | Some e => inr (createFileFailure (Errno e))
               | None => inl (mkPipeConn (cf_handle os) address None None)
               end)
          end
      end
  end.

(** The back-off between two attempts. *)
Definition retryDelay : Z := 100 * Go.Millisecond.

Definition dialFailure (e : error) : error :=
  ErrorString ("npipe.Dial(): " ++ Error e).

(** [Dial]: the loop runs on fuel; attempt number [k] gets the answers
    [os k]. [None] means the fuel ran out before the loop returned. *)
Fixpoint Dial_loop (fuel : nat) (address : string) (os : nat -> DialOS)
    (k : nat) : option (list Event * (PipeConn + error)) :=
  match fuel with
  | O => None
  | S fuel' =>
      match dial address 4294967295 (os k) with
      | (tr, inl conn) => Some (tr, inl conn)
      | (tr, inr e) =>
          if isPipeNotReady (Some e) then
            match Dial_loop fuel' address os (S k) with
            | Some (tr', r) => Some ((tr ++ EvTimeAfter retryDelay :: tr')%list, r)
            | None => None
            end
          else Some (tr, inr (dialFailure e))
      end
  end.

Definition Dial (fuel : nat) (address : string) (os : nat -> DialOS)
  : option (list Event * (PipeConn + error)) :=
  Dial_loop fuel address os 0%nat.

Definition dialTimedOut (address : string) : PipeError :=
  mkPipeError ("npipe.DialTimeout(): timed out waiting for pipe '" ++ address
               ++ "' to come available") true.

(** [DialTimeout]: [clock i] is what the call number [i] of [time.Now()]
    returns; the loop runs on fuel as in [Dial_loop]. *)
Fixpoint DialTimeout_loop (fuel : nat) (address : string) (deadline now : Z)
    (os : nat -> DialOS) (clock : nat -> Z) (k i : nat)
  : option (list Event * (PipeConn + error)) :=
  match fuel with
  | O => None
  | S fuel' =>
      if Go.Before now deadline then
        let millis := Go.uint32 (Z.quot (Go.Sub deadline now) Go.Millisecond) in
        match dial address millis (os k) with
        | (tr, inl conn) => Some (tr, inl conn)
        | (tr, inr e) =>
            if isErrno (Some e) Windows.ERROR_SEM_TIMEOUT then
              Some (tr, inr (PipeErr (dialTimedOut address)))
            else if isPipeNotReady (Some e) then
              let left := Go.Sub deadline (clock i) in
              let retry := retryDelay in
              let pause :=
                if retry <? left then retry else Go.int64 (left - Go.Millisecond) in
              match DialTimeout_loop fuel' address deadline (clock (S i))
                      os clock (S k) (S (S i)) with
              | Some (tr', r) => Some ((tr ++ EvTimeAfter pause :: tr')%list, r)
              | None => None
              end
            else Some (tr, inr e)
        end
      else Some ([], inr (PipeErr (dialTimedOut address)))
  end.

Definition DialTimeout (fuel : nat) (address : string) (timeout : Z)
    (os : nat -> DialOS) (clock : nat -> Z)
  : option (list Event * (PipeConn + error)) :=
  let deadline := Go.Add (clock 0%nat) timeout in
  let now := clock 1%nat in
  DialTimeout_loop fuel address deadline now os clock 0%nat 2%nat.

(** *** Listeners *)

(** [PipeListener]. The mutex is not a field of the model: the one place
    where [AcceptPipe] gives it up, the wait for a pending connect, splits the
    function in two steps between which other calls may run. *)
Record PipeListener : Type := mkPipeListener {
  l_addr : string;
  l_handle : Z;
  closed : bool;
  acceptHandle : Z;
  acceptOverlapped : option Z
}.

Definition NewPipeListener (name : string)
    (openMode pipeMode maxInstances outBuffer inBuffer timeout : Z)
    (sa : option Z) (cnp : Z + Z)
  : list Event * (PipeListener + error) :=
  match ValidatePipeAddress name with
  | Some e => ([], inr (ErrorString ("npipe.NewPipeListener(): " ++ Error e)))
  | None =>
      match UTF16PtrFromString name with
      | inr e =>
          ([], inr (ErrorString
             ("npipe.NewPipeListener(): there was an error converting " ++ Go.dq
              ++ name ++ Go.dq ++ " to a UTF16 pointer: " ++ Error e)))
      | inl lpName =>
          ([EvCreateNamedPipe lpName openMode pipeMode maxInstances outBuffer
              inBuffer timeout sa],
           match cnp with
           | inr e => inr (ErrorString
               ("npipe.NewPipeListener(): there was an error calling the WINAPI CreateNamedPipe function: "
                ++ Error (Errno e)))
           | inl h => inl (mkPipeListener name h false 0 None)
           end)
      end
  end.

Definition NewPipeListenerQuick (name : string) (first : bool) (cnp : Z + Z)
  : list Event * (PipeListener + error) :=
  let mode := Z.lor Windows.PIPE_ACCESS_DUPLEX Windows.FILE_FLAG_OVERLAPPED in
  let mode :=
    if first then Z.lor mode Windows.FILE_FLAG_FIRST_PIPE_INSTANCE else mode in
  match NewPipeListener name (Go.uint32 mode) Windows.PIPE_TYPE_BYTE
          Windows.PIPE_UNLIMITED_INSTANCES 512 512 0 None cnp with
  | (tr, inr e) =>
      (tr, inr (ErrorString
         (Go.dq ++ "npipe.NewPipeListenerQuick(): " ++ Error e ++ Go.dq)))
  | (tr, inl l) => (tr, inl l)
  end.

Definition Listen (address : string) (cnp : Z + Z)
  : list Event * (PipeListener + error) :=
  match NewPipeListenerQuick address true cnp with
  | (tr, inr e) => (tr, inr (ErrorString ("npipe.Listen(): " ++ Error e)))
  | (tr, inl l) => (tr, inl l)
  end.

(** The answers [AcceptPipe] gets before it waits: [CreateNamedPipe] (asked
    only when no handle is stored), [CreateEvent] and [ConnectNamedPipe]. *)
Record AcceptOS : Type := mkAcceptOS {
  ac_pipe : (Z + Z)%type;
  ac_event : (Z + Z)%type;
  ac_connect : option Z
}.

Inductive acceptStep : Type :=
| AcceptDone (r : PipeConn + error)
| AcceptWaiting (h event : Z).

(** The tail of [AcceptPipe]: what is returned for the status [e] of the
    connect on the handle [h]. *)
Definition acceptResult (l : PipeListener) (h : Z) (e : option error)
  : PipeConn + error :=
  if isErrno e Windows.ERROR_OPERATION_ABORTED then inr (PipeErr ErrClosed)
  else match e with
       | Some e' => inr e'
       | None => inl (mkPipeConn h (l_addr l) None None)
       end.

(** The instance [AcceptPipe] creates when the listener stores no handle. *)
Definition acceptInstance (name : string) : Event :=
  EvCreateNamedPipe name
    (Z.lor Windows.PIPE_ACCESS_DUPLEX Windows.FILE_FLAG_OVERLAPPED)
    Windows.PIPE_TYPE_BYTE Windows.PIPE_UNLIMITED_INSTANCES 512 512 0 None.

(** The handle [AcceptPipe] connects on: the stored one, which it clears, or
    a new instance of the pipe. *)
Definition acceptHandleFor (l : PipeListener) (os : AcceptOS)
  : list Event * (PipeListener * Z + error) :=
  if l_handle l =? 0 then
    match UTF16PtrFromString (PipeAddr_String (l_addr l)) with
    | inr e =>
        ([], inr (ErrorString
           ("npipe.PipeListener.AcceptPipe(): there was an error converting "
            ++ Go.dq ++ PipeAddr_String (l_addr l) ++ Go.dq
            ++ " to a UTF16 pointer: " ++ Error e)))
    | inl lpName =>
        ([acceptInstance lpName],
         match ac_pipe os with
         | inr e => inr (Errno e)
         | inl h => inl (l, h)
         end)
    end
  else
    ([], inl (mkPipeListener (l_addr l) 0 (closed l) (acceptHandle l)
                (acceptOverlapped l), l_handle l)).

(** [AcceptPipe] under the lock, up to the point where it either returns or
    unlocks to wait for the pending connect. *)
Definition acceptIssue (l : PipeListener) (os : AcceptOS)
  : list Event * (PipeListener * acceptStep) :=
  if String.eqb (l_addr l) "" || closed l then
    ([], (l, AcceptDone (inr (ErrorString
      "npipe.PipeListener.AcceptPipe(): the address is empty or the listener is closed"))))
  else
    match acceptHandleFor l os with
    | (tr, inr e) => (tr, (l, AcceptDone (inr e)))
    | (tr, inl (l1, h)) =>
        match newOverlapped (ac_event os) with
        | inr e => ((tr ++ [EvCreateEvent])%list, (l1, AcceptDone (inr e)))
        | inl event =>
            let tr2 := (tr ++ [EvCreateEvent; EvConnectNamedPipe h])%list in
            let e := option_map Errno (ac_connect os) in
            if match e with None => true | Some _ => false end
               || isErrno e Windows.ERROR_PIPE_CONNECTED then
              ((tr2 ++ [EvCloseHandle event])%list,
               (l1, AcceptDone (inl (mkPipeConn h (l_addr l1) None None))))
            else if isPending e then
              (tr2,
               (mkPipeListener (l_addr l1) (l_handle l1) (closed l1) h (Some event),
                AcceptWaiting h event))
            else
              ((tr2 ++ [EvCloseHandle event])%list,
               (l1, AcceptDone (acceptResult l1 h e)))
        end
    end.

(** [AcceptPipe] once the wait has delivered: the lock is taken again, the
    record of the outstanding accept is cleared, the event is released. *)
Definition acceptComplete (l : PipeListener) (h event : Z) (w : WaitOS)
  : list Event * (PipeListener * (PipeConn + error)) :=
  let '(tr, (_, e)) := waitForCompletion h event w in
  let l' := mkPipeListener (l_addr l) (l_handle l) (closed l) 0 None in
  ((tr ++ [EvCloseHandle event])%list, (l', acceptResult l' h e)).

(** [AcceptPipe]: [others] is what the calls of other threads of control do
    to the listener while this one waits unlocked, [w] the answers of the wait
    ([None] when it never delivers). A nil listener is [None]. *)
Definition AcceptPipe (l : option PipeListener) (os : AcceptOS)
    (others : PipeListener -> PipeListener) (w : option WaitOS)
  : list Event * outcome (option PipeListener * (PipeConn + error)) :=
  match l with
  | None =>
      ([], Returned (None, inr (ErrorString
         "npipe.PipeListener.AcceptPipe(): the PipeListener is nil")))
  | Some l0 =>
      match acceptIssue l0 os with
      | (tr, (l1, AcceptDone r)) => (tr, Returned (Some l1, r))
      | (tr, (l1, AcceptWaiting h event)) =>
          match w with
          | None => ((tr ++ [EvWaitForSingleObject event])%list, Blocked)
          | Some w' =>
              let '(tr', (l2, r)) := acceptComplete (others l1) h event w' in
              ((tr ++ tr')%list, Returned (Some l2, r))
          end
      end
  end.

Definition disconnectNamedPipe (h : Z) (ret lasterr : Z) : option error :=
  if negb (lasterr =? 0) then
    Some (ErrorString
      ("npipe.disconnectNamedPipe(): there was an error calling the Windows API function DisconnectNamedPipe with return code "
       ++ Go.itoa ret ++ ": " ++ Error (Errno lasterr)))
  else None.

(** The answers [Close] gets, in the order of its calls. *)
Record CloseOS : Type := mkCloseOS {
  cl_disconnect_ret : Z;
  cl_disconnect_lasterr : Z;
  cl_close_handle : option Z;
  cl_cancel : option Z;
  cl_close_event : option Z;
  cl_close_accept : option Z
}.

(** The second half of [Close]: an outstanding accept is cancelled. *)
Definition closeOutstanding (l : PipeListener) (os : CloseOS)
  : list Event * (PipeListener * option error) :=
  match acceptOverlapped l with
  | Some event =>
      if negb (acceptHandle l =? 0) then
        match cl_cancel os with
        | Some e => ([EvCancelIoEx (acceptHandle l)], (l, Some (Errno e)))
        | None =>
            match cl_close_event os with
            | Some e =>
                ([EvCancelIoEx (acceptHandle l); EvCloseHandle event],
                 (l, Some (Errno e)))
            | None =>
                let l1 := mkPipeListener (l_addr l) (l_handle l) (closed l)
                            (acceptHandle l) (Some 0) in
                let tr := [EvCancelIoEx (acceptHandle l); EvCloseHandle event;
                           EvCloseHandle (acceptHandle l)] in
                match cl_close_accept os with
                | Some e => (tr, (l1, Some (Errno e)))
                | None =>
                    (tr, (mkPipeListener (l_addr l) (l_handle l) (closed l)
                            0 (Some 0), None))
                end
            end
        end
      else ([], (l, None))
  | None => ([], (l, None))
  end.

Definition PipeListener_Close (l : PipeListener) (os : CloseOS)
  : list Event * (PipeListener * option error) :=
  if closed l then ([], (l, None))
  else
    let l1 := mkPipeListener (l_addr l) (l_handle l) true (acceptHandle l)
                (acceptOverlapped l) in
    if negb (l_handle l1 =? 0) then
      match disconnectNamedPipe (l_handle l1) (cl_disconnect_ret os)
              (cl_disconnect_lasterr os) with
      | Some e => ([EvDisconnectNamedPipe (l_handle l1)], (l1, Some e))
      | None =>
          match cl_close_handle os with
          | Some e =>
              ([EvDisconnectNamedPipe (l_handle l1); EvCloseHandle (l_handle l1)],
               (l1, Some (Errno e)))
          | None =>
              let l2 := mkPipeListener (l_addr l1) 0 true (acceptHandle l1)
                          (acceptOverlapped l1) in
              let '(tr, r) := closeOutstanding l2 os in
              ((EvDisconnectNamedPipe (l_handle l1) :: EvCloseHandle (l_handle l1)
                  :: tr)%list, r)
          end
      end
    else closeOutstanding l1 os.

Definition Addr (l : PipeListener) : string := l_addr l.
Definition Handle (l : PipeListener) : Z := l_handle l.

(** A thread of control that calls [AcceptPipe] again and again, alone on the
    listener: the traces of its calls, up to the first call that does not
    return. *)
Fixpoint acceptRun (l : PipeListener) (calls : list (AcceptOS * option WaitOS))
  : list (list Event * PipeListener) :=
  match calls with
  | [] => []
  | (os, w) :: rest =>
      match AcceptPipe (Some l) os (fun x => x) w with
      | (tr, Returned (Some l', _)) => (tr, l') :: acceptRun l' rest
      | (tr, _) => []
      end
  end.

(** The names of the pipe instances a trace creates, and the handles it
    connects on. *)
Definition createdPipes (tr : list Event) : list Event :=
  filter (fun ev => match ev with EvCreateNamedPipe _ _ _ _ _ _ _ _ => true
                             | _ => false end) tr.

Definition connectedHandles (tr : list Event) : list Z :=
  flat_map (fun ev => match ev with EvConnectNamedPipe h => [h] | _ => [] end) tr.

Definition waits (tr : list Event) : list Event :=
  filter (fun ev => match ev with
                    | EvWaitForSingleObject _ | EvGetOverlappedResult _
                    | EvTimeAfter _ | EvCancelIoEx _ => true
                    | _ => false end) tr.

Definition pauses (tr : list Event) : list Z :=
  flat_map (fun ev => match ev with EvTimeAfter d => [d] | _ => [] end) tr.

Definition attempts (tr : list Event) : list Event :=
  filter (fun ev => match ev with EvWaitNamedPipe _ _ => true | _ => false end) tr.

(** *** Observations on results *)

Definition timedOut (r : outcome (Z * option error)) : bool :=
  match r with
  | Returned (_, e) => timeoutFlagged e
  | Blocked => false
  end.

Definition reachedEOF (r : outcome (Z * option error)) : bool :=
  match r with
  | Returned (_, e) => isEOF e
  | Blocked => false
  end.

(** The [iodata] that [Read] and [Write] hand to [completeRequest]. *)
Definition issued (os : IoOS) : iodata :=
  mkIodata (fst (io_issue os)) (option_map Errno (snd (io_issue os))).

(** The connection with its read deadline taken away. *)
Definition noDeadline (c : PipeConn) : PipeConn :=
  mkPipeConn (handle c) (addr c) None (writeDeadline c).

(** *** The accept loop *)

(** The error of a result, [None] for a value. *)
Definition failure {A : Type} (r : A + error) : option error :=
  match r with
  | inl _ => None
  | inr e => Some e
  end.

(** What one call of [AcceptPipe] inside [Accept] meets: the answers of the
    platform, what other threads of control do to the listener while the call
    waits unlocked, and the answers of the wait. *)
Record AcceptCall : Type := mkAcceptCall {
  call_os : AcceptOS;
  call_others : PipeListener -> PipeListener;
  call_wait : option WaitOS
}.

(** [Accept]: [AcceptPipe] is called again as long as its error is the status
    ERROR_NO_DATA; the fuel bounds the number of calls, call number [k] meets
    [calls k]. [None] means the fuel ran out. *)
Fixpoint Accept_loop (fuel : nat) (l : option PipeListener)
    (calls : nat -> AcceptCall) (k : nat)
  : option (list Event * outcome (option PipeListener * (PipeConn + error))) :=
  match fuel with
  | O => None
  | S fuel' =>
      match AcceptPipe l (call_os (calls k)) (call_others (calls k))
              (call_wait (calls k)) with
      | (tr, Blocked) => Some (tr, Blocked)
      | (tr, Returned (l', r)) =>
          if isErrno (failure r) Windows.ERROR_NO_DATA then
            match Accept_loop fuel' l' calls (S k) with
            | Some (tr', res) => Some ((tr ++ tr')%list, res)
            | None => None
            end
          else Some (tr, Returned (l', r))
      end
  end.

Definition Accept (fuel : nat) (l : option PipeListener)
    (calls : nat -> AcceptCall)
  : option (list Event * outcome (option PipeListener * (PipeConn + error))) :=
  Accept_loop fuel l calls 0%nat.

(** *** Further observations *)

(** The handles a trace closes, and the handles whose I/O it cancels. *)
Definition released (tr : list Event) : list Z :=
  flat_map (fun ev => match ev with EvCloseHandle h => [h] | _ => [] end) tr.

Definition cancelled (tr : list Event) : list Z :=
  flat_map (fun ev => match ev with EvCancelIoEx h => [h] | _ => [] end) tr.

(** The handle a call of [Close] acts on. *)
Definition target (ev : Event) : option Z :=
  match ev with
  | EvCloseHandle h | EvCancelIoEx h | EvDisconnectNamedPipe h => Some h
  | _ => None
  end.

(** The handles a listener holds: the stored instance, and the handle and
    the event of an outstanding accept. *)
Definition heldHandles (l : PipeListener) : list Z :=
  l_handle l :: acceptHandle l ::
  match acceptOverlapped l with
  | Some event => [event]
  | None => []
  end.

(** The listener as [Close] leaves it. *)
Definition afterClose (l : PipeListener) (os : CloseOS) : PipeListener :=
  fst (snd (PipeListener_Close l os)).

(** The connection with its write deadline taken away. *)
Definition noWriteDeadline (c : PipeConn) : PipeConn :=
  mkPipeConn (handle c) (addr c) (readDeadline c) None.

(** The message of [AcceptPipe] on a listener that is closed or has no
    address. *)
Definition acceptRefused : error :=
  ErrorString
    "npipe.PipeListener.AcceptPipe(): the address is empty or the listener is closed".

(** The message of [AcceptPipe] on a nil listener. *)
Definition acceptOnNil : error :=
  ErrorString "npipe.PipeListener.AcceptPipe(): the PipeListener is nil".

(** A listener with no accept outstanding. *)
Definition idle (l : PipeListener) : Prop :=
  acceptHandle l = 0 /\ acceptOverlapped l = None.

(** A listener [AcceptPipe] can work on: open, with an address that holds no
    NUL byte. *)
Definition usable (l : PipeListener) : Prop :=
  l_addr l <> "" /\ closed l = false /\ Go.hasNUL (l_addr l) = false.

(** A call that meets a client who connected and left at once: the connect
    answers ERROR_NO_DATA when it is issued. *)
Definition clientGone (c : AcceptCall) : Prop :=
  ac_connect (call_os c) = Some Windows.ERROR_NO_DATA /\
  (exists event, ac_event (call_os c) = inl event) /\
  (exists h, ac_pipe (call_os c) = inl h).

(** A call that meets a client who is connected when the connect is issued,
    on the new instance [h] when one has to be created. *)
Definition clientReady (c : AcceptCall) (h : Z) : Prop :=
  (ac_connect (call_os c) = None \/
   ac_connect (call_os c) = Some Windows.ERROR_PIPE_CONNECTED) /\
  (exists event, ac_event (call_os c) = inl event) /\
  ac_pipe (call_os c) = inl h.

(** A segment: a string without backslash. *)
Definition segment (s : string) : Prop :=
  Go.allBytes (fun c => negb (Ascii.eqb c Go.backslash)) s = true.

(** What [Read] and [Write] do once the event exists and the operation is
    issued: [completeRequest] under the deferred release of the event. *)
Definition ioCall (c : PipeConn) (deadline : option Z) (event : Z) (os : IoOS)
  : list Event * outcome (Z * option error) :=
  withDeferredClose event (completeRequest c (issued os) deadline event os).

(** The open mode [Listen] asks for. *)
Definition listenMode : Z :=
  Z.lor (Z.lor Windows.PIPE_ACCESS_DUPLEX Windows.FILE_FLAG_OVERLAPPED)
    Windows.FILE_FLAG_FIRST_PIPE_INSTANCE.

(** *** Sample values, for the examples *)

(** Go's text for a status code without a system message. *)
Definition sampleErrnoText (code : Z) : string := "winapi error #" ++ Go.itoa code.

Definition sampleUnicodeLower (s : string) : string := s.

Definition sampleEINVAL : Z := 536870951.

Definition digitValue (c : ascii) : option Z :=
  let k := nat_of_ascii c in
  if ((48 <=? k) && (k <=? 57))%nat then Some (Z.of_nat (k - 48)) else None.

Fixpoint decimalField (s : string) (acc : Z) : option Z :=
  match s with
  | EmptyString => Some acc
  | String c rest =>
      match digitValue c with
      | Some d => decimalField rest (10 * acc + d)
      | None => None
      end
  end.

Definition sampleOctet (s : string) : option Z :=
  match s with
  | EmptyString => None
  | String c rest =>
      if Ascii.eqb c "0"%char && negb (String.eqb rest "") then None
      else match decimalField s 0 with
           | Some v => if v <=? 255 then Some v else None
           | None => None
           end
  end.

(** A stand-in for net.ParseIP that knows dotted-decimal IPv4 only. *)
Definition sampleParseIP (s : string) : option (list Z) :=
  match map sampleOctet (Go.Split s "."%char) with
  | [Some a; Some b; Some c; Some d] => Some [a; b; c; d]
  | _ => None
  end.

Definition samplePipe : string := "\\.\pipe\mypipe".

Definition sampleBuffer : list Byte.byte := [Byte.x00; Byte.x00; Byte.x00; Byte.x00].

Definition sampleConn (deadline : option Z) : PipeConn :=
  mkPipeConn 7 samplePipe deadline None.

(** A read of 5 bytes that completes at issue time. *)
Definition sampleSyncOS : IoOS := mkIoOS (inl 9) (5, None) 10 None true.

(** A read left pending at instant 10 that completes at instant 20 with 3
    bytes, and one that never completes. *)
Definition samplePendingOS : IoOS :=
  mkIoOS (inl 9) (0, Some Windows.ERROR_IO_PENDING) 10
    (Some (20, mkWaitOS None 3 None)) true.

Definition sampleNeverOS : IoOS :=
  mkIoOS (inl 9) (0, Some Windows.ERROR_IO_PENDING) 10 None true.

(** Attempts to connect that all end with the last-error code [code]. *)
Definition sampleDialOS (code : Z) (k : nat) : DialOS := mkDialOS 0 code 0 None.

(** A clock that advances one millisecond per reading. *)
Definition sampleClock (i : nat) : Z := Z.of_nat i * Go.Millisecond.

Definition sampleListener : PipeListener := mkPipeListener samplePipe 7 false 0 None.

(** A connect left pending, a Close whose calls all succeed, and a wait that
    reports the connect as aborted. *)
Definition samplePendingAccept : AcceptOS :=
  mkAcceptOS (inl 8) (inl 9) (Some Windows.ERROR_IO_PENDING).

Definition sampleCloseOS : CloseOS := mkCloseOS 1 0 None None None None.

Definition sampleAbortedWait : WaitOS :=
  mkWaitOS None 0 (Some Windows.ERROR_OPERATION_ABORTED).

(** A client that connects and disconnects at once, and one that is there
    when the connect is issued. *)
Definition sampleGoneClient : AcceptCall :=
  mkAcceptCall (mkAcceptOS (inl 8) (inl 9) (Some Windows.ERROR_NO_DATA))
    (fun x => x) None.

Definition sampleReadyClient : AcceptCall :=
  mkAcceptCall (mkAcceptOS (inl 10) (inl 11) None) (fun x => x) None.

(** Two clients that give up, then one that stays. *)
Definition sampleClients (k : nat) : AcceptCall :=
  if (k <? 2)%nat then sampleGoneClient else sampleReadyClient.

(** A connect left pending whose wait reports that the client is gone. *)
Definition sampleGoneLater : AcceptCall :=
  mkAcceptCall samplePendingAccept (fun x => x)
    (Some (mkWaitOS None 0 (Some Windows.ERROR_NO_DATA))).

(** A Close whose disconnect fails. *)
Definition sampleFailedClose : CloseOS := mkCloseOS 0 5 None None None None.

(** A connection with a write deadline only. *)
Definition sampleWriter (deadline : option Z) : PipeConn :=
  mkPipeConn 7 samplePipe None deadline.

(** A listener without address. *)
Definition sampleUnnamed : PipeListener := mkPipeListener "" 7 false 0 None.

(** ** Properties *)

(** Closes one case of the analysis of [acceptIssue]. *)
Ltac issue_case :=
  simpl; repeat split; auto; intros; try reflexivity; try discriminate.

(** *** Errors *)

Lemma isErrno_ErrorString (s : string) (code : Z) :
  isErrno (Some (ErrorString s)) code = false.
Proof. reflexivity. Qed.

Lemma isErrno_Errno (c code : Z) :
  isErrno (Some (Errno c)) code = (c =? code).
Proof. reflexivity. Qed.

(** C10: every PipeError reports Temporary() = false, the timeout-flagged
    errors of a deadline expiry and of DialTimeout included (their Timeout()
    is true), and ErrClosed reports Timeout() = false. *)
Theorem PipeError_Temporary_false_ErrClosed_not_timeout :
  (forall e : PipeError, PipeError_Temporary e = false) /\
  (forall a : string,
      PipeError_Timeout (timeout a) = true /\
      PipeError_Temporary (timeout a) = false) /\
  (forall a : string,
      PipeError_Timeout (dialTimedOut a) = true /\
      PipeError_Temporary (dialTimedOut a) = false) /\
  PipeError_Timeout ErrClosed = false /\
  timeoutFlagged (Some (PipeErr ErrClosed)) = false.
Proof.
  repeat split.
Qed.

(** *** Address validation *)

Lemma Split_nonempty (s : string) (sep : ascii) :
  exists hd tl, Go.Split s sep = hd :: tl.
Proof.
  induction s as [|c rest IH]; simpl.
  - eauto.
  - destruct (Ascii.eqb c sep); [eauto|].
    destruct IH as (hd & tl & ->). eauto.
Qed.

Lemma Split_length_pos (s : string) (sep : ascii) :
  (1 <= List.length (Go.Split s sep))%nat.
Proof.
  destruct (Split_nonempty s sep) as (hd & tl & ->). simpl. lia.
Qed.

(** The pieces of a local pipe path. *)
Lemma Split_local_pipe (name : string) :
  exists hd tl,
    Go.Split ("\\.\pipe\" ++ name) Go.backslash
    = "" :: "" :: "." :: "pipe" :: hd :: tl.
Proof.
  destruct (Split_nonempty name Go.backslash) as (hd & tl & E).
  exists hd, tl. simpl. rewrite E. reflexivity.
Qed.

(** Validation succeeds exactly on the addresses that pass its three tests. *)
Lemma ValidatePipeAddress_None_iff (address : string) :
  let p := Go.Split address Go.backslash in
  ValidatePipeAddress address = None <->
  (5 <= List.length p)%nat /\
  (nth 2 p "" = "." \/ ParseIP (nth 2 p "") <> None) /\
  Go.ToLower unicodeLower (nth 3 p "") = "pipe".
Proof.
  intro p. unfold ValidatePipeAddress. fold p.
  destruct (Nat.ltb_spec (List.length p) 5) as [Hlt|Hge].
  - split; [discriminate|]. intros (H & _). lia.
  - destruct (String.eqb_spec (nth 2 p "") ".") as [Hdot|Hdot].
    + destruct (String.eqb_spec (Go.ToLower unicodeLower (nth 3 p "")) "pipe")
        as [Hp|Hp].
      * split; auto.
      * split; [discriminate|]. intros (_ & _ & H). contradiction.
    + destruct (ParseIP (nth 2 p "")) as [ip|] eqn:Hip.
      * destruct (String.eqb_spec (Go.ToLower unicodeLower (nth 3 p "")) "pipe")
          as [Hp|Hp].
        -- split; auto. intros _. repeat split; auto. right. discriminate.
        -- split; [discriminate|]. intros (_ & _ & H). contradiction.
      * split; [discriminate|]. intros (_ & [H|H] & _); congruence.
Qed.

(** On a segment of ASCII bytes, the test of the pipe literal ignores the
    case of the four letters and nothing else. *)
Lemma ToLower_ascii (s : string) :
  Go.allBytes Go.isASCII s = true ->
  Go.ToLower unicodeLower s = Go.mapBytes Go.lowerByte s.
Proof. intros H. unfold Go.ToLower. rewrite H. reflexivity. Qed.

(** C8: validation succeeds on every address \\.\pipe\<name>; it fails on
    every address with fewer than 5 segments between backslashes, with a
    segment 3 that is not pipe once lowered, or with a host segment that is
    neither the dot nor an IP address ParseIP accepts. *)
Theorem ValidatePipeAddress_accepts_local_rejects_malformed :
  (forall name : string, ValidatePipeAddress ("\\.\pipe\" ++ name) = None) /\
  (forall address : string,
      let p := Go.Split address Go.backslash in
      (List.length p < 5)%nat \/
      Go.ToLower unicodeLower (nth 3 p "") <> "pipe" \/
      (nth 2 p "" <> "." /\ ParseIP (nth 2 p "") = None) ->
      ValidatePipeAddress address <> None).
Proof.
  split.
  - intros name. apply ValidatePipeAddress_None_iff.
    destruct (Split_local_pipe name) as (hd & tl & ->).
    simpl. repeat split; [lia | now left].
  - intros address p H Hnone.
    apply ValidatePipeAddress_None_iff in Hnone. fold p in Hnone.
    destruct Hnone as (Hlen & Hhost & Hpipe).
    destruct H as [H | [H | [H1 H2]]].
    + lia.
    + contradiction.
    + destruct Hhost; contradiction.
Qed.

(** *** Reads and writes *)

Lemma int_uint32 (x : Z) : 0 <= x < 2 ^ 32 -> Go.int x = x.
Proof.
  intros H. unfold Go.int, Go.int64.
  assert (2 ^ 32 = 4294967296) by reflexivity.
  assert (2 ^ 63 = 9223372036854775808) by reflexivity.
  assert (2 ^ 64 = 18446744073709551616) by reflexivity.
  rewrite Z.mod_small; lia.
Qed.

(** The saturated difference has the sign of the exact one. *)
Lemma Sub_pos_iff (t u : Z) : 0 < Go.Sub t u <-> u < t.
Proof.
  unfold Go.Sub, Go.minDuration, Go.maxDuration.
  assert (0 < 2 ^ 63) by reflexivity.
  destruct (Z.ltb_spec (t - u) (- 2 ^ 63));
    [|destruct (Z.ltb_spec (2 ^ 63 - 1) (t - u))]; lia.
Qed.

Lemma Sub_le (t u : Z) : u < t -> Go.Sub t u <= t - u.
Proof.
  unfold Go.Sub, Go.minDuration, Go.maxDuration.
  assert (0 < 2 ^ 63) by reflexivity.
  destruct (Z.ltb_spec (t - u) (- 2 ^ 63));
    [|destruct (Z.ltb_spec (2 ^ 63 - 1) (t - u))]; lia.
Qed.

Lemma armTimer_not_after (d now : Z) : d <= now -> armTimer (Some d) now = None.
Proof.
  intros H. unfold armTimer.
  destruct (Z.ltb_spec 0 (Go.Sub d now)) as [Hp|Hp]; [|reflexivity].
  apply -> Sub_pos_iff in Hp. lia.
Qed.

Lemma armTimer_after (d now : Z) :
  now < d -> exists fire, armTimer (Some d) now = Some fire /\ now < fire <= d.
Proof.
  intros H. unfold armTimer.
  pose proof (proj2 (Sub_pos_iff d now) H) as Hp.
  pose proof (Sub_le d now H) as Hle.
  destruct (Z.ltb_spec 0 (Go.Sub d now)); [|lia].
  eexists. split; [reflexivity|lia].
Qed.

(** What the wait hands back is an error made by fmt.Errorf, or nil. *)
Lemma waitForCompletion_error (h event : Z) (w : WaitOS) :
  forall tr n' e,
    waitForCompletion h event w = (tr, (n', e)) ->
    e = None \/ exists s, e = Some (ErrorString s).
Proof.
  intros tr n' e. unfold waitForCompletion.
  unfold waitFailure, overlappedResultFailure.
  destruct (wait_err w); [|destruct (result_err w)];
    intros [= <- <- <-]; eauto.
Qed.

(** After a pending wait the result is never the end of stream: the status
    of the wait reaches the test for broken pipe wrapped in a new error. *)
Lemma completeRequest_pending_never_EOF (c : PipeConn) (data : iodata)
    (deadline : option Z) (event : Z) (os : IoOS) :
  isPending (err data) = true ->
  reachedEOF (snd (completeRequest c data deadline event os)) = false.
Proof.
  intros Hp. unfold completeRequest. rewrite Hp.
  destruct (selectDoneOrTimer _ _ _) as [w| |]; try reflexivity.
  destruct (waitForCompletion (handle c) event w) as [tr [n' e]] eqn:E.
  apply waitForCompletion_error in E. destruct E as [->|[s ->]]; reflexivity.
Qed.

(** C1: a Read or Write whose operation ends with the broken-pipe status
    returns io.EOF when that status comes back at issue time; when the
    operation was left pending and the wait reports broken pipe, the call
    returns the error that waitForCompletion built around the status, which
    is not io.EOF. *)
Theorem broken_pipe_EOF_at_issue_but_not_after_wait :
  forall (h : Z) (a : string) (dl : option Z) (b : list Byte.byte)
         (event n0 now t n1 : Z) (completion : option (Z * WaitOS))
         (tie : bool),
    let c := mkPipeConn h a dl dl in
    let atIssue :=
      mkIoOS (inl event) (n0, Some Windows.ERROR_BROKEN_PIPE) now completion tie in
    let afterWait :=
      mkIoOS (inl event) (n0, Some Windows.ERROR_IO_PENDING) now
        (Some (t, mkWaitOS None n1 (Some Windows.ERROR_BROKEN_PIPE))) tie in
    let wrapped :=
      overlappedResultFailure (Errno Windows.ERROR_BROKEN_PIPE) in
    snd (Read c b atIssue) = Returned (Go.int n0, Some EOF) /\
    snd (Write c b atIssue) = Returned (Go.int n0, Some EOF) /\
    reachedEOF (snd (Read c b afterWait)) = false /\
    reachedEOF (snd (Write c b afterWait)) = false /\
    snd (Read (mkPipeConn h a None None) b afterWait)
      = Returned (Go.int n1, Some wrapped) /\
    snd (Write (mkPipeConn h a None None) b afterWait)
      = Returned (Go.int n1, Some wrapped).
Proof.
  intros h a dl b event n0 now t n1 completion tie c atIssue afterWait wrapped.
  assert (Hnever : forall ddl,
    reachedEOF (snd (withDeferredClose event
      (completeRequest c (issued afterWait) ddl event afterWait))) = false).
  { intros ddl.
    pose proof (completeRequest_pending_never_EOF c (issued afterWait) ddl event
                  afterWait eq_refl) as H.
    destruct (completeRequest c (issued afterWait) ddl event afterWait)
      as [tr [r|]]; exact H. }
  repeat split; try reflexivity.
  - unfold Read. simpl newOverlapped. cbv iota.
    specialize (Hnever (readDeadline c)). unfold issued in Hnever.
    destruct (withDeferredClose _ _) as [tr r]. exact Hnever.
  - unfold Write. simpl newOverlapped. cbv iota.
    specialize (Hnever (writeDeadline c)). unfold issued in Hnever.
    destruct (withDeferredClose _ _) as [tr r]. exact Hnever.
Qed.

(** C7: when the issued operation did not stay pending (its status is
    neither pending nor incomplete), completeRequest returns the byte count
    and the status it was given, broken pipe read as io.EOF, and Read and
    Write issue no wait, no timer and no cancellation, whatever the deadline,
    the clock and the fate of the operation. *)
Theorem completeRequest_synchronous_returns_without_wait :
  forall (c : PipeConn) (b : list Byte.byte) (os : IoOS) (event : Z)
         (deadline : option Z),
    io_event os = inl event ->
    isPending (err (issued os)) = false ->
    completeRequest c (issued os) deadline event os
      = ([], Returned (brokenPipeToEOF (issued os))) /\
    Read c b os
      = ([EvCreateEvent; EvReadFile (handle c) (List.length b);
          EvCloseHandle event],
         Returned (brokenPipeToEOF (issued os))) /\
    Write c b os
      = ([EvCreateEvent; EvWriteFile (handle c) b; EvCloseHandle event],
         Returned (brokenPipeToEOF (issued os))) /\
    waits (fst (Read c b os)) = [] /\
    waits (fst (Write c b os)) = [] /\
    (0 <= n (issued os) < 2 ^ 32 ->
     fst (brokenPipeToEOF (issued os)) = n (issued os)) /\
    (isErrno (err (issued os)) Windows.ERROR_BROKEN_PIPE = false ->
     snd (brokenPipeToEOF (issued os)) = err (issued os)).
Proof.
  intros c b os event deadline Hev Hp.
  assert (Hc : forall ddl, completeRequest c (issued os) ddl event os
                 = ([], Returned (brokenPipeToEOF (issued os)))).
  { intros ddl. unfold completeRequest. rewrite Hp. reflexivity. }
  assert (HR : Read c b os
      = ([EvCreateEvent; EvReadFile (handle c) (List.length b);
          EvCloseHandle event],
         Returned (brokenPipeToEOF (issued os)))).
  { unfold Read. rewrite Hev. simpl newOverlapped. cbv iota.
    fold (issued os). rewrite Hc. reflexivity. }
  assert (HW : Write c b os
      = ([EvCreateEvent; EvWriteFile (handle c) b; EvCloseHandle event],
         Returned (brokenPipeToEOF (issued os)))).
  { unfold Write. rewrite Hev. simpl newOverlapped. cbv iota.
    fold (issued os). rewrite Hc. reflexivity. }
  repeat split; auto.
  - rewrite HR. reflexivity.
  - rewrite HW. reflexivity.
  - intros Hn. simpl. apply int_uint32. exact Hn.
  - intros Hb. unfold brokenPipeToEOF. rewrite Hb. reflexivity.
Qed.

(** Without a timer the result is the completion's or the issue's own: it
    carries no timeout flag. *)
Lemma completeRequest_no_timer_no_timeout (c : PipeConn) (os : IoOS)
    (deadline : option Z) (event : Z) :
  armTimer deadline (io_now os) = None ->
  timedOut (snd (completeRequest c (issued os) deadline event os)) = false /\
  ~ In (EvCancelIoEx (handle c))
       (fst (completeRequest c (issued os) deadline event os)).
Proof.
  intros Ht. unfold completeRequest. rewrite Ht.
  destruct (isPending (err (issued os))) eqn:Hp.
  - destruct (io_completion os) as [[t w]|]; simpl selectDoneOrTimer; cbv iota.
    + unfold waitForCompletion, waitFailure, overlappedResultFailure.
      destruct (wait_err w); [|destruct (result_err w)]; simpl;
        (split; [reflexivity|]); intros H;
        repeat (destruct H as [H|H]; [discriminate|]); exact H.
    + simpl. split; [reflexivity|]. intros [H|[]]. discriminate.
  - simpl fst. simpl snd. split; [|intros []].
    unfold issued, brokenPipeToEOF. simpl.
    destruct (snd (io_issue os)) as [e|]; simpl; [|reflexivity].
    destruct (e =? Windows.ERROR_BROKEN_PIPE); reflexivity.
Qed.

(** A deadline that arms no timer is as good as no deadline. *)
Lemma completeRequest_no_timer_as_nil (c c' : PipeConn) (data : iodata)
    (deadline : option Z) (event : Z) (os : IoOS) :
  handle c' = handle c -> addr c' = addr c ->
  armTimer deadline (io_now os) = None ->
  completeRequest c data deadline event os
  = completeRequest c' data None event os.
Proof.
  intros Hh Ha Ht. unfold completeRequest. rewrite Ht, Hh, Ha. reflexivity.
Qed.

(** C5: with the read deadline unset Read never produces a timeout, and with
    a deadline strictly after the instant at which Read looks at the clock a
    pending read that has not completed by the deadline is cancelled and Read
    returns the timeout-flagged error. With a deadline already in the past
    (at or before the clock) Read does not return the timeout-flagged error:
    the guard on the time left arms no timer, so Read behaves as without a
    deadline, and a pending read blocks it until the operation completes. *)
Theorem Read_times_out_only_when_deadline_is_ahead :
  forall (c : PipeConn) (b : list Byte.byte) (os : IoOS),
    ((readDeadline c = None \/
      exists d, readDeadline c = Some d /\ d <= io_now os) ->
     Read c b os = Read (noDeadline c) b os /\
     timedOut (snd (Read c b os)) = false /\
     ~ In (EvCancelIoEx (handle c)) (fst (Read c b os)) /\
     (forall event,
         io_event os = inl event ->
         isPending (err (issued os)) = true ->
         io_completion os = None ->
         snd (Read c b os) = Blocked)) /\
    (forall d event,
        readDeadline c = Some d ->
        io_now os < d ->
        io_event os = inl event ->
        isPending (err (issued os)) = true ->
        (io_completion os = None \/
         exists t w, io_completion os = Some (t, w) /\ d < t) ->
        snd (Read c b os)
          = Returned (0, Some (PipeErr (timeout (addr c)))) /\
        timedOut (snd (Read c b os)) = true /\
        In (EvCancelIoEx (handle c)) (fst (Read c b os))).
Proof.
  intros c b os. split.
  - intros Hd.
    assert (Ht : armTimer (readDeadline c) (io_now os) = None).
    { destruct Hd as [->|(d & -> & Hle)]; [reflexivity|].
      apply armTimer_not_after. exact Hle. }
    assert (Heq : Read c b os = Read (noDeadline c) b os).
    { unfold Read. destruct (newOverlapped (io_event os)) as [event|e];
        [|reflexivity].
      rewrite (completeRequest_no_timer_as_nil c (noDeadline c) _ _ event os
                 eq_refl eq_refl Ht).
      reflexivity. }
    split; [exact Heq|].
    unfold Read. destruct (io_event os) as [event|e] eqn:Hev; simpl newOverlapped;
      cbv iota.
    + fold (issued os).
      destruct (completeRequest_no_timer_no_timeout c os (readDeadline c) event Ht)
        as [Hto Hcancel].
      assert (Hblock : isPending (err (issued os)) = true ->
                       io_completion os = None ->
                       snd (completeRequest c (issued os) (readDeadline c) event os)
                       = Blocked).
      { intros Hp Hc. unfold completeRequest. rewrite Hp, Ht, Hc. reflexivity. }
      destruct (completeRequest c (issued os) (readDeadline c) event os)
        as [tr [r|]]; simpl in *.
      * split; [exact Hto|]. split.
        -- intros [H|[H|H]]; try discriminate.
           apply in_app_or in H. destruct H as [H|[H|[]]]; [auto|discriminate].
        -- intros ev _ Hp Hc. specialize (Hblock Hp Hc). discriminate.
      * split; [reflexivity|]. split.
        -- intros [H|[H|H]]; try discriminate. auto.
        -- reflexivity.
    + simpl. split; [reflexivity|]. split.
      * intros [H|[]]. discriminate.
      * intros ev H. discriminate.
  - intros d event Hd Hnow Hev Hp Hc.
    destruct (armTimer_after d (io_now os) Hnow) as (fire & Hfire & Hrange).
    assert (Hsel : selectDoneOrTimer (Some fire) (io_completion os) (io_tie os)
                   = SelTimer).
    { destruct Hc as [->|(t & w & -> & Hlt)]; [reflexivity|].
      simpl. destruct (Z.ltb_spec t fire); [lia|].
      destruct (Z.ltb_spec fire t); [reflexivity|lia]. }
    unfold Read. rewrite Hev. simpl newOverlapped. cbv iota.
    fold (issued os). unfold completeRequest. rewrite Hp, Hd, Hfire, Hsel.
    simpl. repeat split; auto 10.
Qed.

(** *** Dialing *)

(** Every failure of [dial] is an error built by fmt.Errorf: the status of
    the platform never leaves it as a status. *)
Lemma dial_failure_is_ErrorString (address : string) (t : Z) (os : DialOS) :
  forall tr e,
    dial address t os = (tr, inr e) -> exists s, e = ErrorString s.
Proof.
  intros tr e. unfold dial, UTF16PtrFromString, waitNamedPipe,
    waitNamedPipeFailure, utf16Failure, createFileFailure.
  destruct (Go.hasNUL address).
  - intros [= <- <-]. eauto.
  - destruct (negb (wnp_lasterr os =? 0)); simpl.
    + intros [= <- <-]. eauto.
    + destruct (cf_err os); intros [= <- <-]. eauto.
Qed.

Lemma dial_failure_not_ready (address : string) (t : Z) (os : DialOS) :
  forall tr e,
    dial address t os = (tr, inr e) ->
    isPipeNotReady (Some e) = false /\
    isErrno (Some e) Windows.ERROR_SEM_TIMEOUT = false /\
    isPipeError (Some e) = false.
Proof.
  intros tr e H. apply dial_failure_is_ErrorString in H.
  destruct H as [s ->]. repeat split.
Qed.

(** One turn of the loop decides [Dial]: it returns the connection of the
    first attempt or the wrapped failure of the first attempt. *)
Lemma Dial_loop_one_attempt (fuel : nat) (address : string)
    (os : nat -> DialOS) (k : nat) :
  Dial_loop (S fuel) address os k
  = Some (match dial address 4294967295 (os k) with
          | (tr, inl conn) => (tr, inl conn)
          | (tr, inr e) => (tr, inr (dialFailure e))
          end).
Proof.
  cbn [Dial_loop]. destruct (dial address 4294967295 (os k)) as [tr [conn|e]] eqn:E.
  - reflexivity.
  - destruct (dial_failure_is_ErrorString _ _ _ _ _ E) as [s ->]. reflexivity.
Qed.

Lemma DialTimeout_loop_one_attempt (fuel : nat) (address : string)
    (deadline now : Z) (os : nat -> DialOS) (clock : nat -> Z) (k i : nat) :
  DialTimeout_loop (S fuel) address deadline now os clock k i
  = Some (if Go.Before now deadline
          then dial address
                 (Go.uint32 (Z.quot (Go.Sub deadline now) Go.Millisecond)) (os k)
          else ([], inr (PipeErr (dialTimedOut address)))).
Proof.
  cbn [DialTimeout_loop]. destruct (Go.Before now deadline); [|reflexivity].
  destruct (dial _ _ _) as [tr [conn|e]] eqn:E.
  - reflexivity.
  - destruct (dial_failure_is_ErrorString _ _ _ _ _ E) as [s ->]. reflexivity.
Qed.

(** What [dial] does when WaitNamedPipeW leaves a last-error code. *)
Lemma dial_wait_failed (address : string) (t : Z) (os : DialOS) :
  Go.hasNUL address = false ->
  wnp_lasterr os <> 0 ->
  dial address t os
  = ([EvWaitNamedPipe address t],
     inr (waitNamedPipeFailure (wnp_ret os) (Errno (wnp_lasterr os)))).
Proof.
  intros Hn He. unfold dial, UTF16PtrFromString, waitNamedPipe. rewrite Hn.
  destruct (Z.eqb_spec (wnp_lasterr os) 0); [contradiction|]. reflexivity.
Qed.

Lemma dial_connected (address : string) (t : Z) (os : DialOS) :
  Go.hasNUL address = false ->
  wnp_lasterr os = 0 ->
  cf_err os = None ->
  dial address t os
  = ([EvWaitNamedPipe address t; EvCreateFile address],
     inl (mkPipeConn (cf_handle os) address None None)).
Proof.
  intros Hn He Hc. unfold dial, UTF16PtrFromString, waitNamedPipe.
  rewrite Hn, He, Hc. reflexivity.
Qed.

(** Dial returns the connection of a first attempt that succeeds. *)
Lemma Dial_connects_first_attempt (fuel : nat) (address : string)
    (os : nat -> DialOS) :
  Go.hasNUL address = false ->
  wnp_lasterr (os 0%nat) = 0 ->
  cf_err (os 0%nat) = None ->
  Dial (S fuel) address os
  = Some ([EvWaitNamedPipe address 4294967295; EvCreateFile address],
          inl (mkPipeConn (cf_handle (os 0%nat)) address None None)).
Proof.
  intros Hn He Hc. unfold Dial. rewrite Dial_loop_one_attempt.
  rewrite (dial_connected _ _ _ Hn He Hc). reflexivity.
Qed.

(** C3: on an attempt that fails because the pipe is not yet created or all
    its instances are busy, Dial does not sleep and try again: the failure
    reaches the test for these two outcomes wrapped by fmt.Errorf, the test
    is false, and Dial returns the failure of the first attempt at once. *)
Theorem Dial_returns_not_ready_failure_without_retry :
  forall (fuel : nat) (address : string) (os : nat -> DialOS),
    Go.hasNUL address = false ->
    (wnp_lasterr (os 0%nat) = Windows.ERROR_FILE_NOT_FOUND \/
     wnp_lasterr (os 0%nat) = Windows.ERROR_PIPE_BUSY ->
     Dial (S fuel) address os
     = Some ([EvWaitNamedPipe address 4294967295],
             inr (dialFailure
                    (waitNamedPipeFailure (wnp_ret (os 0%nat))
                       (Errno (wnp_lasterr (os 0%nat))))))) /\
    (wnp_lasterr (os 0%nat) = 0 ->
     cf_err (os 0%nat) = Some Windows.ERROR_PIPE_BUSY ->
     Dial (S fuel) address os
     = Some ([EvWaitNamedPipe address 4294967295; EvCreateFile address],
             inr (dialFailure (createFileFailure (Errno Windows.ERROR_PIPE_BUSY))))) /\
    (exists tr r,
        Dial (S fuel) address os = Some (tr, r) /\
        pauses tr = [] /\ (List.length (attempts tr) <= 1)%nat).
Proof.
  intros fuel address os Hn. unfold Dial. rewrite Dial_loop_one_attempt.
  repeat split.
  - intros He. rewrite dial_wait_failed; [reflexivity|exact Hn|].
    unfold Windows.ERROR_FILE_NOT_FOUND, Windows.ERROR_PIPE_BUSY in He. lia.
  - intros He Hc. unfold dial, UTF16PtrFromString, waitNamedPipe.
    rewrite Hn, He, Hc. reflexivity.
  - unfold dial, UTF16PtrFromString, waitNamedPipe. rewrite Hn.
    destruct (negb (wnp_lasterr (os 0%nat) =? 0)); simpl.
    + eexists _, _. split; [reflexivity|]. split; [reflexivity|simpl; lia].
    + destruct (cf_err (os 0%nat));
        (eexists _, _; split; [reflexivity|]; split; [reflexivity|simpl; lia]).
Qed.

(** C4: when the deadline has already passed at the first look at the clock,
    DialTimeout returns its timeout-flagged error; when the platform's wait
    for the pipe times out, or the pipe does not exist, within the deadline,
    DialTimeout returns at once the error waitNamedPipe built around the
    status, which carries no timeout flag. *)
Theorem DialTimeout_flags_deadline_but_not_platform_timeout :
  forall (fuel : nat) (address : string) (timeout : Z) (os : nat -> DialOS)
         (clock : nat -> Z),
    Go.hasNUL address = false ->
    (clock 0%nat + timeout <= clock 1%nat ->
     DialTimeout (S fuel) address timeout os clock
     = Some ([], inr (PipeErr (dialTimedOut address)))) /\
    (clock 1%nat < clock 0%nat + timeout ->
     wnp_lasterr (os 0%nat) = Windows.ERROR_SEM_TIMEOUT \/
     wnp_lasterr (os 0%nat) = Windows.ERROR_FILE_NOT_FOUND ->
     exists tr e,
       DialTimeout (S fuel) address timeout os clock = Some (tr, inr e) /\
       e = waitNamedPipeFailure (wnp_ret (os 0%nat))
             (Errno (wnp_lasterr (os 0%nat))) /\
       timeoutFlagged (Some e) = false /\
       isPipeError (Some e) = false /\
       pauses tr = []).
Proof.
  intros fuel address tmo os clock Hn. unfold DialTimeout, Go.Add.
  rewrite DialTimeout_loop_one_attempt. unfold Go.Before. split.
  - intros Hle. destruct (Z.ltb_spec (clock 1%nat) (clock 0%nat + tmo)); [lia|].
    reflexivity.
  - intros Hlt He.
    destruct (Z.ltb_spec (clock 1%nat) (clock 0%nat + tmo)); [|lia].
    rewrite dial_wait_failed; [|exact Hn|].
    + eexists _, _. repeat split.
    + unfold Windows.ERROR_SEM_TIMEOUT, Windows.ERROR_FILE_NOT_FOUND in He. lia.
Qed.

(** Dial never returns a PipeError: what it returns on failure is built by
    fmt.Errorf. *)
Lemma Dial_failure_never_PipeError (fuel : nat) (address : string)
    (os : nat -> DialOS) :
  forall tr e,
    Dial fuel address os = Some (tr, inr e) -> isPipeError (Some e) = false.
Proof.
  intros tr e. destruct fuel as [|fuel]; [discriminate|].
  unfold Dial. rewrite Dial_loop_one_attempt.
  destruct (dial address 4294967295 (os 0%nat)) as [tr' [conn|e']];
    intros [= <- <-]; reflexivity.
Qed.

(** C6: for an address that the platform refuses as a bad path name, Dial
    and DialTimeout return at once, without a pause and without a timeout
    flag, but what they return is the error waitNamedPipe built around the
    status (wrapped once more by Dial), not the bad-address PipeError. *)
Theorem Dial_bad_path_name_is_not_badAddr :
  forall (fuel : nat) (address : string) (timeout : Z) (os : nat -> DialOS)
         (clock : nat -> Z),
    Go.hasNUL address = false ->
    wnp_lasterr (os 0%nat) = Windows.ERROR_BAD_PATHNAME ->
    let refused :=
      waitNamedPipeFailure (wnp_ret (os 0%nat)) (Errno Windows.ERROR_BAD_PATHNAME) in
    Dial (S fuel) address os
      = Some ([EvWaitNamedPipe address 4294967295], inr (dialFailure refused)) /\
    isPipeError (Some (dialFailure refused)) = false /\
    dialFailure refused <> PipeErr (badAddr address) /\
    (clock 1%nat < clock 0%nat + timeout ->
     exists millis,
       DialTimeout (S fuel) address timeout os clock
       = Some ([EvWaitNamedPipe address millis], inr refused)) /\
    isPipeError (Some refused) = false /\
    refused <> PipeErr (badAddr address).
Proof.
  intros fuel address tmo os clock Hn He refused.
  assert (Hne : wnp_lasterr (os 0%nat) <> 0).
  { rewrite He. discriminate. }
  repeat split; try discriminate.
  - unfold Dial. rewrite Dial_loop_one_attempt.
    rewrite (dial_wait_failed _ _ _ Hn Hne). rewrite He. reflexivity.
  - intros Hlt. unfold DialTimeout, Go.Add.
    rewrite DialTimeout_loop_one_attempt. unfold Go.Before.
    destruct (Z.ltb_spec (clock 1%nat) (clock 0%nat + tmo)); [|lia].
    rewrite (dial_wait_failed _ _ _ Hn Hne). rewrite He. eexists. reflexivity.
Qed.

(** *** Listeners *)

(** The status of a connect that went through the wait is nil or an error
    built by fmt.Errorf, so the tail of AcceptPipe never answers ErrClosed
    for it. *)
Lemma acceptComplete_never_ErrClosed (l : PipeListener) (h event : Z)
    (w : WaitOS) :
  snd (snd (acceptComplete l h event w)) <> inr (PipeErr ErrClosed).
Proof.
  unfold acceptComplete.
  destruct (waitForCompletion h event w) as [tr [k e]] eqn:E.
  apply waitForCompletion_error in E.
  destruct E as [->|[s ->]]; simpl; discriminate.
Qed.

(** A connect that is aborted at issue time does become ErrClosed. *)
Lemma acceptResult_aborted (l : PipeListener) (h : Z) :
  acceptResult l h (Some (Errno Windows.ERROR_OPERATION_ABORTED))
  = inr (PipeErr ErrClosed).
Proof. reflexivity. Qed.

(** A listener that waits has recorded the handle and the event, keeps no
    stored handle and is open. *)
Lemma acceptIssue_waiting (l : PipeListener) (os : AcceptOS) :
  forall tr l1 h event,
    acceptIssue l os = (tr, (l1, AcceptWaiting h event)) ->
    acceptHandle l1 = h /\ acceptOverlapped l1 = Some event /\
    l_handle l1 = 0 /\ closed l1 = false.
Proof.
  intros tr l1 h event. unfold acceptIssue.
  destruct (String.eqb (l_addr l) "" || closed l) eqn:Hg; [discriminate|].
  apply orb_false_iff in Hg. destruct Hg as [_ Hc].
  unfold acceptHandleFor.
  destruct (Z.eqb_spec (l_handle l) 0) as [Hz|Hz].
  - destruct (UTF16PtrFromString _); [|discriminate].
    destruct (ac_pipe os); [|discriminate].
    destruct (newOverlapped (ac_event os)); [|discriminate].
    destruct (ac_connect os) as [e|]; simpl; [|discriminate].
    destruct (e =? Windows.ERROR_PIPE_CONNECTED); simpl; [discriminate|].
    destruct (isPending (Some (Errno e))); [|discriminate].
    intros [= <- <- <- <-]. simpl. auto.
  - destruct (newOverlapped (ac_event os)); [|discriminate].
    destruct (ac_connect os) as [e|]; simpl; [|discriminate].
    destruct (e =? Windows.ERROR_PIPE_CONNECTED); simpl; [discriminate|].
    destruct (isPending (Some (Errno e))); [|discriminate].
    intros [= <- <- <- <-]. simpl. auto.
Qed.

(** C2: when the connect of AcceptPipe is left pending and a concurrent
    Close cancels it, so that the wait reports the operation as aborted,
    AcceptPipe does not return ErrClosed: it returns the error that
    waitForCompletion built around the status; whatever the wait reports
    after the Close, the result is not ErrClosed. *)
Theorem AcceptPipe_pending_connect_cancelled_is_not_ErrClosed :
  forall (l : PipeListener) (os : AcceptOS) (cos : CloseOS) (w : WaitOS)
         (tr : list Event) (l1 : PipeListener) (h event : Z),
    acceptIssue l os = (tr, (l1, AcceptWaiting h event)) ->
    h <> 0 ->
    wait_err w = None ->
    result_err w = Some Windows.ERROR_OPERATION_ABORTED ->
    let closing := fun x => fst (snd (PipeListener_Close x cos)) in
    let aborted :=
      overlappedResultFailure (Errno Windows.ERROR_OPERATION_ABORTED) in
    In (EvCancelIoEx h) (fst (PipeListener_Close l1 cos)) /\
    closed (closing l1) = true /\
    (exists tr' l2,
        AcceptPipe (Some l) os closing (Some w)
        = (tr', Returned (Some l2, inr aborted))) /\
    aborted <> PipeErr ErrClosed /\
    (forall w' : WaitOS,
        snd (snd (acceptComplete (closing l1) h event w'))
        <> inr (PipeErr ErrClosed)).
Proof.
  intros l os cos w tr l1 h event Hissue Hh Hw Hr closing aborted.
  destruct (acceptIssue_waiting _ _ _ _ _ _ Hissue) as (Hah & Hov & Hl & Hc).
  assert (Hclose : In (EvCancelIoEx h) (fst (PipeListener_Close l1 cos)) /\
                   closed (closing l1) = true).
  { unfold closing, PipeListener_Close. rewrite Hc. simpl l_handle. rewrite Hl.
    simpl negb. cbv iota. unfold closeOutstanding. simpl acceptOverlapped.
    simpl acceptHandle. rewrite Hov, Hah.
    destruct (Z.eqb_spec h 0) as [|_]; [contradiction|]. simpl negb. cbv iota.
    destruct (cl_cancel cos); [simpl; auto|].
    destruct (cl_close_event cos); [simpl; auto|].
    destruct (cl_close_accept cos); simpl; auto. }
  destruct Hclose as [Hcancel Hclosed].
  split; [exact Hcancel|]. split; [exact Hclosed|]. split; [|split].
  - unfold AcceptPipe. rewrite Hissue.
    unfold acceptComplete, waitForCompletion. rewrite Hw, Hr.
    eexists _, _. reflexivity.
  - discriminate.
  - intros w'. apply acceptComplete_never_ErrClosed.
Qed.

(** What one call does to an open listener with an address. *)
Lemma acceptIssue_open (l : PipeListener) (os : AcceptOS) :
  l_addr l <> "" -> closed l = false -> Go.hasNUL (l_addr l) = false ->
  l_addr (fst (snd (acceptIssue l os))) = l_addr l /\
  closed (fst (snd (acceptIssue l os))) = false /\
  l_handle (fst (snd (acceptIssue l os))) = 0 /\
  createdPipes (fst (acceptIssue l os))
    = (if l_handle l =? 0 then [acceptInstance (l_addr l)] else []) /\
  (forall ev, ac_event os = inl ev ->
     match (if l_handle l =? 0 then ac_pipe os else inl (l_handle l)) with
     | inl h => connectedHandles (fst (acceptIssue l os)) = [h]
     | inr _ => connectedHandles (fst (acceptIssue l os)) = []
     end).
Proof.
  intros Ha Hc Hn. unfold acceptIssue.
  apply String.eqb_neq in Ha. rewrite Ha, Hc. simpl orb. cbv iota.
  unfold acceptHandleFor, UTF16PtrFromString, PipeAddr_String. rewrite Hn.
  destruct (Z.eqb_spec (l_handle l) 0) as [Hz|Hz];
    [destruct (ac_pipe os) as [h|e]; [|solve [issue_case]]|];
    (destruct (ac_event os) as [ev|e]; simpl newOverlapped; cbv iota;
     [|solve [issue_case]]);
    (destruct (ac_connect os) as [e|]; simpl; [|solve [issue_case]]);
    (destruct (e =? Windows.ERROR_PIPE_CONNECTED); simpl; [solve [issue_case]|]);
    destruct (isPending (Some (Errno e))); issue_case.
Qed.

Lemma createdPipes_app (tr tr' : list Event) :
  createdPipes (tr ++ tr') = (createdPipes tr ++ createdPipes tr')%list.
Proof. apply filter_app. Qed.

Lemma acceptComplete_open (l : PipeListener) (h event : Z) (w : WaitOS) :
  l_addr (fst (snd (acceptComplete l h event w))) = l_addr l /\
  closed (fst (snd (acceptComplete l h event w))) = closed l /\
  l_handle (fst (snd (acceptComplete l h event w))) = l_handle l /\
  createdPipes (fst (acceptComplete l h event w)) = [].
Proof.
  unfold acceptComplete, waitForCompletion.
  destruct (wait_err w); [|destruct (result_err w)]; simpl; auto.
Qed.

(** A whole call, alone on the listener. *)
Lemma AcceptPipe_open (l : PipeListener) (os : AcceptOS) (w : option WaitOS) :
  l_addr l <> "" -> closed l = false -> Go.hasNUL (l_addr l) = false ->
  forall tr l' r,
    AcceptPipe (Some l) os (fun x => x) w = (tr, Returned (Some l', r)) ->
    l_addr l' = l_addr l /\ closed l' = false /\ l_handle l' = 0 /\
    createdPipes tr
      = (if l_handle l =? 0 then [acceptInstance (l_addr l)] else []).
Proof.
  intros Ha Hc Hn tr l' r.
  destruct (acceptIssue_open l os Ha Hc Hn) as (H1 & H2 & H3 & H4 & _).
  unfold AcceptPipe.
  destruct (acceptIssue l os) as [tr1 [l1 [res|h event]]]; simpl in *.
  - intros [= <- <- <-]. auto.
  - destruct w as [w|]; [|discriminate].
    destruct (acceptComplete_open l1 h event w) as (G1 & G2 & G3 & G4).
    destruct (acceptComplete l1 h event w) as [tr2 [l2 r2]]; simpl in *.
    intros [= <- <- <-]. rewrite createdPipes_app, G4, app_nil_r.
    repeat split; congruence.
Qed.

(** Once the stored handle is gone, every call creates an instance. *)
Lemma acceptRun_idle (name : string) (calls : list (AcceptOS * option WaitOS)) :
  name <> "" -> Go.hasNUL name = false ->
  forall l,
    l_addr l = name -> closed l = false -> l_handle l = 0 ->
    Forall (fun p => createdPipes (fst p) = [acceptInstance name] /\
                     l_handle (snd p) = 0)
           (acceptRun l calls).
Proof.
  intros Hne Hn. induction calls as [|[os w] rest IH]; intros l Ha Hc Hh.
  - constructor.
  - cbn [acceptRun].
    destruct (AcceptPipe (Some l) os (fun x => x) w) as [tr [[[l'|] r]|]] eqn:E;
      try constructor.
    + apply AcceptPipe_open in E; try congruence.
      destruct E as (E1 & E2 & E3 & E4). rewrite Hh, Ha in E4. simpl in E4.
      split; assumption.
    + apply AcceptPipe_open in E; try congruence.
      destruct E as (E1 & E2 & E3 & E4). apply IH; congruence.
Qed.

(** A listener that was constructed has an address that passed validation. *)
Lemma NewPipeListener_ok (name : string)
    (om pm mi ob ib tmo : Z) (sa : option Z) (cnp : Z + Z) :
  forall tr0 l0,
    NewPipeListener name om pm mi ob ib tmo sa cnp = (tr0, inl l0) ->
    name <> "" /\ Go.hasNUL name = false /\
    tr0 = [EvCreateNamedPipe name om pm mi ob ib tmo sa] /\
    exists h, cnp = inl h /\ l0 = mkPipeListener name h false 0 None.
Proof.
  intros tr0 l0. unfold NewPipeListener.
  destruct (ValidatePipeAddress name) eqn:Hv; [discriminate|].
  unfold UTF16PtrFromString.
  destruct (Go.hasNUL name) eqn:Hn; [discriminate|].
  destruct cnp as [h|e]; [|discriminate].
  intros [= <- <-]. repeat split; eauto.
  intros ->. discriminate.
Qed.

(** The wait of [AcceptPipe] creates no instance and issues no connect: what
    a call creates and connects on is what it does under the lock. *)
Lemma AcceptPipe_creates_and_connects_under_the_lock (l : PipeListener)
    (os : AcceptOS) (others : PipeListener -> PipeListener)
    (w : option WaitOS) :
  createdPipes (fst (AcceptPipe (Some l) os others w))
    = createdPipes (fst (acceptIssue l os)) /\
  connectedHandles (fst (AcceptPipe (Some l) os others w))
    = connectedHandles (fst (acceptIssue l os)).
Proof.
  unfold AcceptPipe.
  destruct (acceptIssue l os) as [tr [l1 [res|h event]]]; simpl; [auto|].
  destruct w as [w|]; simpl.
  - unfold acceptComplete, waitForCompletion.
    destruct (wait_err w); [|destruct (result_err w)]; simpl;
      unfold createdPipes, connectedHandles;
      rewrite filter_app, flat_map_app; simpl; rewrite !app_nil_r; auto.
  - unfold createdPipes, connectedHandles.
    rewrite filter_app, flat_map_app. simpl. rewrite !app_nil_r. auto.
Qed.

(** A call that returns hands back the listener, with the address, the open
    flag and the stored handle that the part under the lock left. *)
Lemma AcceptPipe_alone_returns_listener (l : PipeListener) (os : AcceptOS)
    (w : option WaitOS) :
  forall l' r,
    snd (AcceptPipe (Some l) os (fun x => x) w) = Returned (l', r) ->
    exists l1,
      l' = Some l1 /\
      l_addr l1 = l_addr (fst (snd (acceptIssue l os))) /\
      closed l1 = closed (fst (snd (acceptIssue l os))) /\
      l_handle l1 = l_handle (fst (snd (acceptIssue l os))).
Proof.
  intros l' r. unfold AcceptPipe.
  destruct (acceptIssue l os) as [tr [l1 [res|h event]]]; simpl.
  - intros [= <- <-]. eauto.
  - destruct w as [w|]; [|discriminate].
    unfold acceptComplete.
    destruct (waitForCompletion h event w) as [tr2 [k e]]. simpl.
    intros [= <- <-]. eexists. split; [reflexivity|]. simpl. auto.
Qed.

(** C9: NewPipeListener creates one instance and stores its handle. The
    first AcceptPipe on that listener creates no instance and connects on the
    stored handle, and it hands back the listener with the stored handle
    cleared; when the client is there it returns the connection on that
    handle. Every later AcceptPipe (on the open listener, whose stored handle
    is cleared) calls CreateNamedPipe under the same name, with
    PIPE_ACCESS_DUPLEX|FILE_FLAG_OVERLAPPED, byte type, unlimited instances
    and buffers of 512, connects on the handle it got, and leaves the stored
    handle cleared; when the client is there it returns the connection on
    the new handle. *)
Theorem first_AcceptPipe_takes_stored_handle_later_ones_create_instances :
  forall (name : string) (om pm mi ob ib tmo : Z) (sa : option Z) (h : Z)
         (tr0 : list Event) (l0 : PipeListener),
    NewPipeListener name om pm mi ob ib tmo sa (inl h) = (tr0, inl l0) ->
    h <> 0 ->
    (tr0 = [EvCreateNamedPipe name om pm mi ob ib tmo sa] /\
     l0 = mkPipeListener name h false 0 None /\
     l_handle l0 = h /\ l_addr l0 = name) /\
    (forall (os : AcceptOS) (others : PipeListener -> PipeListener)
            (w : option WaitOS),
        createdPipes (fst (AcceptPipe (Some l0) os others w)) = [] /\
        (forall ev, ac_event os = inl ev ->
           connectedHandles (fst (AcceptPipe (Some l0) os others w)) = [h]) /\
        (forall ev,
           ac_event os = inl ev ->
           ac_connect os = None \/
           ac_connect os = Some Windows.ERROR_PIPE_CONNECTED ->
           AcceptPipe (Some l0) os others w
           = ([EvCreateEvent; EvConnectNamedPipe h; EvCloseHandle ev],
              Returned (Some (mkPipeListener name 0 false 0 None),
                        inl (mkPipeConn h name None None)))) /\
        (forall l' r,
           snd (AcceptPipe (Some l0) os (fun x => x) w) = Returned (l', r) ->
           exists l1,
             l' = Some l1 /\ l_addr l1 = name /\ closed l1 = false /\
             l_handle l1 = 0)) /\
    (forall (l : PipeListener) (os : AcceptOS)
            (others : PipeListener -> PipeListener) (w : option WaitOS),
        l_addr l = name -> closed l = false -> l_handle l = 0 ->
        createdPipes (fst (AcceptPipe (Some l) os others w))
          = [EvCreateNamedPipe name 1073741827 0 255 512 512 0 None] /\
        (forall ev h',
           ac_event os = inl ev -> ac_pipe os = inl h' ->
           connectedHandles (fst (AcceptPipe (Some l) os others w)) = [h']) /\
        (forall ev h',
           ac_event os = inl ev -> ac_pipe os = inl h' ->
           ac_connect os = None \/
           ac_connect os = Some Windows.ERROR_PIPE_CONNECTED ->
           AcceptPipe (Some l) os others w
           = ([EvCreateNamedPipe name 1073741827 0 255 512 512 0 None;
               EvCreateEvent; EvConnectNamedPipe h'; EvCloseHandle ev],
              Returned (Some l, inl (mkPipeConn h' name None None)))) /\
        (forall l' r,
           snd (AcceptPipe (Some l) os (fun x => x) w) = Returned (l', r) ->
           exists l1,
             l' = Some l1 /\ l_addr l1 = name /\ closed l1 = false /\
             l_handle l1 = 0)) /\
    (forall calls tr1 l1 rest,
        acceptRun l0 calls = (tr1, l1) :: rest ->
        createdPipes tr1 = [] /\ l_handle l1 = 0 /\
        Forall (fun p =>
                  createdPipes (fst p)
                  = [EvCreateNamedPipe name 1073741827 0 255 512 512 0 None] /\
                  l_handle (snd p) = 0) rest).
Proof.
  intros name om pm mi ob ib tmo sa h tr0 l0 Hnew Hh.
  apply NewPipeListener_ok in Hnew.
  destruct Hnew as (Hne & Hn & -> & h' & [= <-] & ->).
  pose proof Hne as Hne'. apply String.eqb_neq in Hne'.
  split; [auto|]. split; [|split].
  - intros os others w.
    destruct (AcceptPipe_creates_and_connects_under_the_lock
                (mkPipeListener name h false 0 None) os others w) as [Ec Eh].
    destruct (acceptIssue_open (mkPipeListener name h false 0 None) os)
      as (H1 & H2 & H3 & H4 & H5); auto.
    simpl l_handle in H4, H5. simpl l_addr in H1.
    destruct (Z.eqb_spec h 0) as [|Hnz]; [contradiction|].
    split; [congruence|]. split; [|split].
    + intros ev Hev. rewrite Eh. exact (H5 ev Hev).
    + intros ev Hev Hready.
      unfold AcceptPipe, acceptIssue, acceptHandleFor. simpl.
      rewrite Hne', Hev. simpl.
      destruct (Z.eqb_spec h 0) as [|_]; [contradiction|].
      destruct Hready as [-> | ->]; reflexivity.
    + intros l' r Hret.
      destruct (AcceptPipe_alone_returns_listener _ os w _ _ Hret)
        as (l1 & -> & Ha & Hc & Hz).
      exists l1. repeat split; congruence.
  - intros l os others w Ha Hc Hz.
    assert (Hne2 : l_addr l <> "") by congruence.
    assert (Hn2 : Go.hasNUL (l_addr l) = false) by congruence.
    destruct (AcceptPipe_creates_and_connects_under_the_lock l os others w)
      as [Ec Eh].
    destruct (acceptIssue_open l os Hne2 Hc Hn2) as (H1 & H2 & H3 & H4 & H5).
    rewrite Hz, Ha in H4. simpl in H4.
    split; [rewrite Ec; exact H4|]. split; [|split].
    + intros ev h2 Hev Hp. rewrite Eh. specialize (H5 ev Hev).
      rewrite Hz, Hp in H5. exact H5.
    + intros ev h2 Hev Hp Hready.
      destruct l as [la lh lc lah lov]. simpl in Ha, Hc, Hz. subst la lc lh.
      unfold AcceptPipe, acceptIssue, acceptHandleFor, UTF16PtrFromString,
        PipeAddr_String. simpl.
      rewrite Hne', Hn, Hp, Hev. simpl.
      destruct Hready as [-> | ->]; reflexivity.
    + intros l' r Hret.
      destruct (AcceptPipe_alone_returns_listener _ os w _ _ Hret)
        as (l1 & -> & Ha1 & Hc1 & Hz1).
      exists l1. repeat split; congruence.
  - intros calls tr1 l1 rest Hrun.
    destruct calls as [|[os w] calls]; [discriminate|].
    cbn [acceptRun] in Hrun.
    destruct (AcceptPipe (Some (mkPipeListener name h false 0 None)) os
                (fun x => x) w) as [tr [[[l'|] r]|]] eqn:E; try discriminate.
    injection Hrun as <- <- <-.
    apply AcceptPipe_open in E; auto.
    destruct E as (E1 & E2 & E3 & E4). simpl in E1, E4.
    destruct (Z.eqb_spec h 0) as [|_]; [contradiction|].
    repeat split; auto.
    exact (acceptRun_idle name calls Hne Hn l' E1 E2 E3).
Qed.


(** *** Closing a listener *)

(** Takes [Close] apart along the answers of its calls. *)
Ltac close_cases :=
  unfold afterClose, PipeListener_Close, closeOutstanding, disconnectNamedPipe;
  repeat match goal with
         | |- context [match ?x with _ => _ end] =>
             lazymatch x with
             | context [match _ with _ => _ end] => fail
             | _ => destruct x eqn:?
             end
         end;
  simpl in *.

Lemma Close_marks_closed (l : PipeListener) (os : CloseOS) :
  closed (afterClose l os) = true.
Proof. clear unicodeLower ParseIP EINVAL. close_cases; congruence. Qed.

Lemma Close_keeps_address (l : PipeListener) (os : CloseOS) :
  l_addr (afterClose l os) = l_addr l.
Proof. clear unicodeLower ParseIP EINVAL. close_cases; congruence. Qed.

Lemma Close_of_closed (l : PipeListener) (os : CloseOS) :
  closed l = true -> PipeListener_Close l os = ([], (l, None)).
Proof. intros H. unfold PipeListener_Close. rewrite H. reflexivity. Qed.

(** X1: Close takes effect once. Whatever its calls answered, the listener
    is marked closed, and any further Close returns nil without a system
    call and without changing the listener; so when the disconnect of the
    stored instance failed, the handle stays stored and is never released. *)
Theorem PipeListener_Close_takes_effect_once :
  forall (l : PipeListener) (os os' : CloseOS),
    closed (afterClose l os) = true /\
    l_addr (afterClose l os) = l_addr l /\
    PipeListener_Close (afterClose l os) os' = ([], (afterClose l os, None)) /\
    (closed l = false -> l_handle l <> 0 -> cl_disconnect_lasterr os <> 0 ->
     snd (snd (PipeListener_Close l os)) <> None /\
     released (fst (PipeListener_Close l os)) = [] /\
     l_handle (afterClose l os) = l_handle l /\
     released (fst (PipeListener_Close (afterClose l os) os')) = []).
Proof.
  intros l os os'.
  pose proof (Close_marks_closed l os) as Hc.
  split; [exact Hc|]. split; [apply Close_keeps_address|].
  split; [apply Close_of_closed; exact Hc|].
  intros Hopen Hh He.
  rewrite (Close_of_closed _ os' Hc).
  unfold afterClose, PipeListener_Close, disconnectNamedPipe. rewrite Hopen.
  simpl l_handle.
  destruct (Z.eqb_spec (l_handle l) 0) as [|_]; [contradiction|].
  destruct (Z.eqb_spec (cl_disconnect_lasterr os) 0) as [|_]; [contradiction|].
  simpl. repeat split; auto. discriminate.
Qed.

(** X2: AcceptPipe refuses a listener that Close has marked, a listener
    without address and a nil listener: it returns its error without a system
    call and leaves the listener as it was. *)
Theorem AcceptPipe_refuses_closed_unnamed_and_nil_listeners :
  forall (os : AcceptOS) (others : PipeListener -> PipeListener)
         (w : option WaitOS),
    (forall l cos,
        AcceptPipe (Some (afterClose l cos)) os others w
        = ([], Returned (Some (afterClose l cos), inr acceptRefused))) /\
    (forall l,
        l_addr l = "" ->
        AcceptPipe (Some l) os others w
        = ([], Returned (Some l, inr acceptRefused))) /\
    AcceptPipe None os others w = ([], Returned (None, inr acceptOnNil)).
Proof.
  intros os others w. split; [|split].
  - intros l cos. unfold AcceptPipe, acceptIssue.
    rewrite (Close_marks_closed l cos), orb_true_r. reflexivity.
  - intros l Ha. unfold AcceptPipe, acceptIssue. rewrite Ha. reflexivity.
  - reflexivity.
Qed.

(** The state [acceptIssue] leaves: address and open flag as they were, no
    stored handle, and the record of the outstanding accept set exactly when
    the call goes on to wait. *)
Lemma acceptIssue_state (l : PipeListener) (os : AcceptOS) :
  l_addr l <> "" -> closed l = false ->
  l_addr (fst (snd (acceptIssue l os))) = l_addr l /\
  closed (fst (snd (acceptIssue l os))) = false /\
  l_handle (fst (snd (acceptIssue l os))) = 0 /\
  match snd (snd (acceptIssue l os)) with
  | AcceptDone _ =>
      acceptHandle (fst (snd (acceptIssue l os))) = acceptHandle l /\
      acceptOverlapped (fst (snd (acceptIssue l os))) = acceptOverlapped l
  | AcceptWaiting h event =>
      acceptHandle (fst (snd (acceptIssue l os))) = h /\
      acceptOverlapped (fst (snd (acceptIssue l os))) = Some event
  end.
Proof.
  intros Ha Hc. unfold acceptIssue.
  apply String.eqb_neq in Ha. rewrite Ha, Hc. simpl orb. cbv iota.
  unfold acceptHandleFor, UTF16PtrFromString.
  destruct (Z.eqb_spec (l_handle l) 0) as [Hz|Hz];
    [destruct (Go.hasNUL (PipeAddr_String (l_addr l)));
       [solve [issue_case]|];
     destruct (ac_pipe os) as [h|e]; [|solve [issue_case]]|];
    (destruct (ac_event os) as [ev|e]; simpl newOverlapped; cbv iota;
     [|solve [issue_case]]);
    (destruct (ac_connect os) as [e|]; simpl; [|solve [issue_case]]);
    (destruct (e =? Windows.ERROR_PIPE_CONNECTED); simpl; [solve [issue_case]|]);
    destruct (isPending (Some (Errno e))); issue_case.
Qed.

(** The state a call of [AcceptPipe] that returns leaves, when no other
    thread of control touched the listener. *)
Lemma AcceptPipe_alone_state (l : PipeListener) (os : AcceptOS)
    (w : option WaitOS) :
  l_addr l <> "" -> closed l = false -> idle l ->
  forall tr l' r,
    AcceptPipe (Some l) os (fun x => x) w = (tr, Returned (l', r)) ->
    exists l1,
      l' = Some l1 /\ l_addr l1 = l_addr l /\ closed l1 = false /\
      l_handle l1 = 0 /\ idle l1.
Proof.
  intros Ha Hc [Hi1 Hi2] tr l' r.
  destruct (acceptIssue_state l os Ha Hc) as (H1 & H2 & H3 & H4).
  unfold AcceptPipe.
  destruct (acceptIssue l os) as [tr1 [l1 [res|h event]]]; simpl in *.
  - intros [= <- <- <-]. exists l1. unfold idle. destruct H4. repeat split; congruence.
  - destruct w as [w|]; [|discriminate].
    unfold acceptComplete.
    destruct (waitForCompletion h event w) as [tr2 [k e]].
    intros [= <- <- <-]. eexists. split; [reflexivity|]. simpl. unfold idle.
    simpl. auto.
Qed.

(** X3: accepted connections are out of the reach of Close. After a call of
    AcceptPipe that returned (no other thread of control being at work on the
    listener) Close only marks the listener: it makes no system call. *)
Theorem PipeListener_Close_after_AcceptPipe_makes_no_call :
  forall (l : PipeListener) (os : AcceptOS) (w : option WaitOS)
         (cos : CloseOS) (tr : list Event) (l' : PipeListener)
         (r : PipeConn + error),
    l_addr l <> "" -> closed l = false -> idle l ->
    AcceptPipe (Some l) os (fun x => x) w = (tr, Returned (Some l', r)) ->
    fst (PipeListener_Close l' cos) = [] /\
    snd (snd (PipeListener_Close l' cos)) = None /\
    closed (afterClose l' cos) = true.
Proof.
  intros l os w cos tr l' r Ha Hc Hi Hrun.
  destruct (AcceptPipe_alone_state l os w Ha Hc Hi _ _ _ Hrun)
    as (l1 & [= <-] & _ & Hopen & Hh & Hi1 & Hi2).
  split; [|split; [|apply Close_marks_closed]];
    unfold PipeListener_Close, closeOutstanding;
    rewrite Hopen; simpl l_handle; rewrite Hh; simpl; rewrite Hi2; reflexivity.
Qed.

(** X4: Close acts on the handles the listener holds and on no other: every
    call in its trace is on the stored instance, or on the handle or the
    event of the outstanding accept; it cancels only when an accept is
    recorded on an open listener. *)
Theorem PipeListener_Close_acts_only_on_held_handles :
  forall (l : PipeListener) (os : CloseOS),
    (forall ev, In ev (fst (PipeListener_Close l os)) ->
                exists h, target ev = Some h /\ In h (heldHandles l)) /\
    (cancelled (fst (PipeListener_Close l os)) <> [] ->
     closed l = false /\ acceptHandle l <> 0 /\ acceptOverlapped l <> None /\
     cancelled (fst (PipeListener_Close l os)) = [acceptHandle l]).
Proof.
  clear unicodeLower ParseIP EINVAL.
  intros l os. unfold heldHandles. split.
  - intros ev.
    close_cases; intros H; try discriminate;
      repeat match goal with
             | E : Some _ = Some _ |- _ => injection E as E; subst
             end;
      repeat (destruct H as [<-|H]; [eexists; split; [reflexivity|simpl; tauto]|]);
      destruct H.
  - close_cases; intros H; try discriminate;
      try (exfalso; apply H; reflexivity);
      repeat split; try congruence;
      match goal with
      | E : negb (acceptHandle l =? 0) = true |- _ =>
          intros Hz; rewrite Hz in E; discriminate E
      end.
Qed.

(** X5: when Close cancels an outstanding accept and its calls succeed, it
    closes the event of the accept and the handle the accept waits on; the
    call of AcceptPipe that was waiting then closes the same event once more
    on its way out, and when the wait reports a client it returns a
    connection on the handle Close has closed. *)
Theorem Close_during_accept_releases_what_AcceptPipe_still_uses :
  forall (l : PipeListener) (os : AcceptOS) (cos : CloseOS) (w : WaitOS)
         (tr : list Event) (l1 : PipeListener) (h event : Z),
    acceptIssue l os = (tr, (l1, AcceptWaiting h event)) ->
    h <> 0 ->
    cl_cancel cos = None -> cl_close_event cos = None ->
    released (fst (PipeListener_Close l1 cos)) = [event; h] /\
    released (fst (acceptComplete (afterClose l1 cos) h event w)) = [event] /\
    (wait_err w = None -> result_err w = None ->
     snd (snd (acceptComplete (afterClose l1 cos) h event w))
     = inl (mkPipeConn h (l_addr l) None None)).
Proof.
  intros l os cos w tr l1 h event Hissue Hh Hcancel Hev.
  destruct (acceptIssue_waiting _ _ _ _ _ _ Hissue) as (Hah & Hov & Hl & Hc).
  assert (Haddr : l_addr l1 = l_addr l).
  { assert (Hg : String.eqb (l_addr l) "" || closed l = false).
    { unfold acceptIssue in Hissue.
      destruct (String.eqb (l_addr l) "" || closed l); [discriminate|reflexivity]. }
    apply orb_false_iff in Hg. destruct Hg as [Hne Hcl].
    apply String.eqb_neq in Hne.
    pose proof (proj1 (acceptIssue_state l os Hne Hcl)) as H.
    rewrite Hissue in H. exact H. }
  split; [|split].
  - unfold PipeListener_Close, closeOutstanding. rewrite Hc. simpl l_handle.
    rewrite Hl. simpl. rewrite Hov, Hah, Hcancel, Hev.
    destruct (Z.eqb_spec h 0) as [|_]; [contradiction|]. simpl.
    destruct (cl_close_accept cos); reflexivity.
  - unfold acceptComplete, waitForCompletion.
    destruct (wait_err w); [|destruct (result_err w)]; reflexivity.
  - intros Hw Hr. unfold acceptComplete, waitForCompletion. rewrite Hw, Hr.
    simpl. unfold acceptResult. simpl. rewrite Close_keeps_address, Haddr.
    reflexivity.
Qed.

(** *** Accepting *)

(** Takes the equation [H] apart along the innermost test it still holds. *)
Ltac cases_in H :=
  repeat (simpl in H;
          match type of H with
          | context [match ?x with _ => _ end] =>
              lazymatch x with
              | context [match _ with _ => _ end] => fail
              | _ => destruct x eqn:?
              end
          end);
  simpl in H.

(** X6: AcceptPipe keeps the listener usable. On a listener that is open,
    has an address and no accept outstanding, the record of the outstanding
    accept holds the handle and the event exactly while the call waits, and
    a call that returns (no other thread of control being at work) leaves the
    listener open, under the same address, with no stored handle and no
    accept recorded. *)
Theorem AcceptPipe_records_accept_only_while_waiting :
  forall (l : PipeListener) (os : AcceptOS) (w : option WaitOS),
    l_addr l <> "" -> closed l = false -> idle l ->
    (forall tr l1 h event,
        acceptIssue l os = (tr, (l1, AcceptWaiting h event)) ->
        acceptHandle l1 = h /\ acceptOverlapped l1 = Some event /\
        l_handle l1 = 0 /\ closed l1 = false /\ l_addr l1 = l_addr l) /\
    (forall tr l1 r,
        acceptIssue l os = (tr, (l1, AcceptDone r)) -> idle l1) /\
    (forall tr l' r,
        AcceptPipe (Some l) os (fun x => x) w = (tr, Returned (l', r)) ->
        exists l1,
          l' = Some l1 /\ l_addr l1 = l_addr l /\ closed l1 = false /\
          l_handle l1 = 0 /\ idle l1).
Proof.
  intros l os w Ha Hc Hi.
  pose proof (acceptIssue_state l os Ha Hc) as (H1 & H2 & H3 & H4).
  split; [|split].
  - intros tr l1 h event E. rewrite E in *. simpl in *. destruct H4. auto.
  - intros tr l1 r E. rewrite E in *. simpl in *. destruct H4, Hi.
    split; congruence.
  - apply AcceptPipe_alone_state; assumption.
Qed.

(** X7: a connection AcceptPipe returns is on the handle it connected on,
    which is the stored instance when there is one and the instance just
    created otherwise; it carries the address of the listener and no
    deadline. *)
Theorem AcceptPipe_connection_is_on_the_connected_handle :
  forall (l : PipeListener) (os : AcceptOS)
         (others : PipeListener -> PipeListener) (w : option WaitOS)
         (tr : list Event) (l' : option PipeListener) (conn : PipeConn),
    (forall x, l_addr (others x) = l_addr x) ->
    AcceptPipe (Some l) os others w = (tr, Returned (l', inl conn)) ->
    addr conn = l_addr l /\
    connectedHandles tr = [handle conn] /\
    readDeadline conn = None /\ writeDeadline conn = None /\
    (l_handle l <> 0 -> handle conn = l_handle l /\ createdPipes tr = []) /\
    (l_handle l = 0 ->
     ac_pipe os = inl (handle conn) /\
     createdPipes tr = [acceptInstance (l_addr l)]).
Proof.
  intros l os others w tr l' conn Hothers H.
  unfold AcceptPipe, acceptIssue, acceptHandleFor, UTF16PtrFromString,
    newOverlapped, acceptComplete, waitForCompletion, acceptResult,
    PipeAddr_String in H.
  cases_in H; try discriminate;
    injection H as <- <- <-; simpl;
    repeat match goal with
           | E : (_, _) = (_, _) |- _ => injection E as E; subst
           | E : inl _ = inl _ |- _ => injection E as E; subst
           | E : (_ =? _) = true |- _ => apply Z.eqb_eq in E
           | E : (_ =? _) = false |- _ => apply Z.eqb_neq in E
           end;
    simpl; rewrite ?Hothers;
    repeat split; auto; intros; try contradiction; try congruence.
Qed.

(** X22: AcceptPipe closes its event and nothing else. When a call returns
    an error after it has issued the connect, the handle it connected on is
    not closed, not stored and not recorded in the listener: the instance is
    dropped. *)
Theorem AcceptPipe_drops_the_instance_of_a_failed_connect :
  forall (l : PipeListener) (os : AcceptOS) (w : option WaitOS)
         (tr : list Event) (l' : PipeListener) (e : error) (h : Z),
    l_addr l <> "" -> closed l = false -> idle l ->
    AcceptPipe (Some l) os (fun x => x) w = (tr, Returned (Some l', inr e)) ->
    connectedHandles tr = [h] ->
    (exists event, ac_event os = inl event /\ released tr = [event]) /\
    l_handle l' = 0 /\ acceptHandle l' = 0 /\ acceptOverlapped l' = None.
Proof.
  intros l os w tr l' e h Ha Hc [Hi1 Hi2] H Hconn.
  apply String.eqb_neq in Ha.
  unfold AcceptPipe, acceptIssue, acceptHandleFor, UTF16PtrFromString,
    newOverlapped, acceptComplete, waitForCompletion, acceptResult,
    PipeAddr_String in H.
  rewrite Ha, Hc in H.
  cases_in H; try discriminate;
    injection H as <- <- <-; simpl in *; try discriminate;
    repeat match goal with
           | E : (_, _) = (_, _) |- _ => injection E as E; subst
           | E : inl _ = inl _ |- _ => injection E as E; subst
           | E : inr _ = inr _ |- _ => injection E as E; subst
           end;
    simpl; repeat split; eauto;
    match goal with
    | E : (l_handle l =? 0) = true |- _ => apply Z.eqb_eq in E; exact E
    end.
Qed.

(** *** The accept loop *)

Lemma Accept_loop_never_NO_DATA (fuel : nat) :
  forall l calls k tr l' r,
    Accept_loop fuel l calls k = Some (tr, Returned (l', r)) ->
    isErrno (failure r) Windows.ERROR_NO_DATA = false.
Proof.
  induction fuel as [|fuel IH]; intros l calls k tr l' r; [discriminate|].
  cbn [Accept_loop].
  destruct (AcceptPipe l _ _ _) as [tr1 [[l1 r1]|]]; [|discriminate].
  destruct (isErrno (failure r1) Windows.ERROR_NO_DATA) eqn:E.
  - destruct (Accept_loop fuel l1 calls (S k)) as [[tr2 res]|] eqn:E2;
      [|discriminate].
    intros [= <- ->]. eapply IH. exact E2.
  - intros [= <- <- <-]. exact E.
Qed.

(** One call that meets a client who left at once. *)
Lemma AcceptPipe_clientGone (l : PipeListener) (c : AcceptCall) :
  usable l -> clientGone c ->
  exists tr l1 hc,
    AcceptPipe (Some l) (call_os c) (call_others c) (call_wait c)
    = (tr, Returned (Some l1, inr (Errno Windows.ERROR_NO_DATA))) /\
    usable l1 /\ l_handle l1 = 0 /\ l_addr l1 = l_addr l /\
    connectedHandles tr = [hc].
Proof.
  intros (Ha & Hc & Hn) (Hconn & [event Hev] & [h Hp]).
  pose proof Ha as Ha'. apply String.eqb_neq in Ha'.
  unfold AcceptPipe, acceptIssue, acceptHandleFor, UTF16PtrFromString,
    PipeAddr_String, usable.
  rewrite Ha', Hc, Hn, Hev, Hp, Hconn. simpl.
  destruct (Z.eqb_spec (l_handle l) 0) as [Hz|Hz]; simpl;
    eexists _, _, _; (split; [reflexivity|]); simpl; auto.
Qed.

(** One call that meets a client who is there. *)
Lemma AcceptPipe_clientReady (l : PipeListener) (c : AcceptCall) (h : Z) :
  usable l -> clientReady c h ->
  exists tr l1,
    AcceptPipe (Some l) (call_os c) (call_others c) (call_wait c)
    = (tr, Returned
             (Some l1,
              inl (mkPipeConn (if l_handle l =? 0 then h else l_handle l)
                     (l_addr l) None None))) /\
    connectedHandles tr = [if l_handle l =? 0 then h else l_handle l].
Proof.
  intros (Ha & Hc & Hn) (Hconn & [event Hev] & Hp).
  pose proof Ha as Ha'. apply String.eqb_neq in Ha'.
  unfold AcceptPipe, acceptIssue, acceptHandleFor, UTF16PtrFromString,
    PipeAddr_String.
  rewrite Ha', Hc, Hn, Hev, Hp. simpl.
  destruct Hconn as [-> | ->]; simpl;
    destruct (Z.eqb_spec (l_handle l) 0) as [Hz|Hz]; simpl;
    eexists _, _; (split; [reflexivity|]); reflexivity.
Qed.

Lemma connectedHandles_app (tr tr' : list Event) :
  connectedHandles (tr ++ tr')
  = (connectedHandles tr ++ connectedHandles tr')%list.
Proof. apply flat_map_app. Qed.

(** The loop absorbs [m] clients who left, then returns the one who stays. *)
Lemma Accept_loop_absorbs (calls : nat -> AcceptCall) (h : Z) (m : nat) :
  forall (l : PipeListener) (k : nat),
    usable l ->
    (forall i, (i < m)%nat -> clientGone (calls (k + i)%nat)) ->
    clientReady (calls (k + m)%nat) h ->
    exists tr l' conn,
      Accept_loop (S m) (Some l) calls k
      = Some (tr, Returned (Some l', inl conn)) /\
      addr conn = l_addr l /\
      List.length (connectedHandles tr) = S m /\
      last (connectedHandles tr) 0 = handle conn /\
      (m <> 0%nat \/ l_handle l = 0 -> handle conn = h).
Proof.
  induction m as [|m IH]; intros l k Hu Hgone Hready.
  - rewrite Nat.add_0_r in Hready.
    destruct (AcceptPipe_clientReady l _ h Hu Hready) as (tr & l1 & E & Hch).
    cbn [Accept_loop]. rewrite E. simpl.
    eexists _, _, _. split; [reflexivity|]. simpl. rewrite Hch.
    repeat split; auto.
    intros [H|H]; [contradiction|]. rewrite H. reflexivity.
  - assert (H0 : clientGone (calls k)).
    { specialize (Hgone 0%nat). rewrite Nat.add_0_r in Hgone.
      apply Hgone. apply Nat.lt_0_succ. }
    destruct (AcceptPipe_clientGone l _ Hu H0)
      as (tr1 & l1 & hc & E & Hu1 & Hz1 & Ha1 & Hch1).
    destruct (IH l1 (S k) Hu1) as (tr2 & l2 & conn & E2 & Haddr & Hlen & Hlast & Hh).
    { intros i Hi. replace (S k + i)%nat with (k + S i)%nat by apply Nat.add_succ_r.
      apply Hgone. apply -> Nat.succ_lt_mono. exact Hi. }
    { replace (S k + m)%nat with (k + S m)%nat by apply Nat.add_succ_r.
      exact Hready. }
    remember (S m) as m' eqn:Hm'.
    cbn [Accept_loop]. rewrite E. simpl isErrno. cbv iota. rewrite E2.
    eexists _, _, _. split; [reflexivity|].
    rewrite connectedHandles_app, Hch1. simpl.
    split; [congruence|]. split; [congruence|]. split.
    + destruct (connectedHandles tr2) as [|x xs];
        [simpl in Hlen; congruence|].
      change (last (x :: xs) 0 = handle conn). exact Hlast.
    + intros _. apply Hh. right. exact Hz1.
Qed.

(** X8: whatever happens, Accept does not hand the status ERROR_NO_DATA to
    its caller: when it returns, its error is not that status. *)
Theorem Accept_never_returns_the_status_NO_DATA :
  forall (fuel : nat) (l : option PipeListener) (calls : nat -> AcceptCall)
         (tr : list Event) (l' : option PipeListener) (r : PipeConn + error),
    Accept fuel l calls = Some (tr, Returned (l', r)) ->
    isErrno (failure r) Windows.ERROR_NO_DATA = false /\
    r <> inr (Errno Windows.ERROR_NO_DATA).
Proof.
  intros fuel l calls tr l' r H.
  apply Accept_loop_never_NO_DATA in H. split; [exact H|].
  intros ->. discriminate H.
Qed.

(** X9: Accept absorbs clients who connect and leave at once. On a usable
    listener, when the connects of the first m calls answer ERROR_NO_DATA as
    they are issued and the next call finds a client connected, Accept makes
    m + 1 calls of AcceptPipe and returns the connection of the last one,
    under the address of the listener. *)
Theorem Accept_absorbs_clients_that_left_at_once :
  forall (l : PipeListener) (calls : nat -> AcceptCall) (m : nat) (h : Z),
    usable l ->
    (forall i, (i < m)%nat -> clientGone (calls i)) ->
    clientReady (calls m) h ->
    exists tr l' conn,
      Accept (S m) (Some l) calls = Some (tr, Returned (Some l', inl conn)) /\
      addr conn = l_addr l /\
      List.length (connectedHandles tr) = S m /\
      last (connectedHandles tr) 0 = handle conn /\
      (m <> 0%nat \/ l_handle l = 0 -> handle conn = h).
Proof.
  intros l calls m h Hu Hgone Hready. unfold Accept.
  apply Accept_loop_absorbs; auto.
Qed.

(** X10: a client who leaves while the connect is pending is not absorbed.
    When the connect of the first call stays pending and the wait reports
    ERROR_NO_DATA, Accept makes no second call: it returns the error that
    waitForCompletion built around the status. *)
Theorem Accept_returns_NO_DATA_that_came_through_the_wait :
  forall (fuel : nat) (l : PipeListener) (calls : nat -> AcceptCall)
         (w : WaitOS) (tr : list Event) (l1 : PipeListener) (h event : Z),
    acceptIssue l (call_os (calls 0%nat)) = (tr, (l1, AcceptWaiting h event)) ->
    call_wait (calls 0%nat) = Some w ->
    wait_err w = None ->
    result_err w = Some Windows.ERROR_NO_DATA ->
    exists tr' l2,
      Accept (S fuel) (Some l) calls
      = Some (tr', Returned
                     (Some l2,
                      inr (overlappedResultFailure (Errno Windows.ERROR_NO_DATA)))) /\
      connectedHandles tr' = [h].
Proof.
  intros fuel l calls w tr l1 h event Hissue Hcw Hw Hr.
  assert (Hconn : connectedHandles tr = [h]).
  { clear Hcw Hw Hr.
    unfold acceptIssue, acceptHandleFor, UTF16PtrFromString, newOverlapped
      in Hissue.
    cases_in Hissue; try discriminate;
      injection Hissue as <- <- <- <-; reflexivity. }
  unfold Accept. cbn [Accept_loop]. unfold AcceptPipe.
  rewrite Hissue, Hcw. unfold acceptComplete, waitForCompletion.
  rewrite Hw, Hr. simpl.
  eexists _, _. split; [reflexivity|].
  rewrite connectedHandles_app, Hconn. reflexivity.
Qed.

(** *** Validation and construction *)

Lemma Split_segment (a s : string) :
  segment a ->
  Go.Split (a ++ String Go.backslash s) Go.backslash
  = a :: Go.Split s Go.backslash.
Proof.
  unfold segment. induction a as [|c a IH]; simpl; intros H.
  - reflexivity.
  - apply andb_true_iff in H. destruct H as [Hc Ha].
    destruct (Ascii.eqb c Go.backslash); [discriminate|].
    rewrite (IH Ha). reflexivity.
Qed.

(** X11: validation looks at the segments 2 and 3 only. An address passes
    whatever stands in its first two segments and whatever follows the pipe
    literal: the two leading backslashes are not required. *)
Theorem ValidatePipeAddress_ignores_leading_segments :
  forall (a b name : string),
    segment a -> segment b ->
    ValidatePipeAddress
      (a ++ String Go.backslash (b ++ String Go.backslash (".\pipe\" ++ name)))
    = None.
Proof.
  intros a b name Ha Hb. apply ValidatePipeAddress_None_iff.
  rewrite (Split_segment a _ Ha), (Split_segment b _ Hb).
  destruct (Split_nonempty name Go.backslash) as (hd & tl & E).
  simpl. rewrite E. simpl. repeat split; [lia | now left].
Qed.

Lemma ValidatePipeAddress_nonempty (address : string) :
  ValidatePipeAddress address = None -> address <> "".
Proof. intros H ->. discriminate H. Qed.

(** X12: the constructors refuse a bad address before they touch the
    platform. When validation fails, or the name holds a NUL byte,
    NewPipeListener, NewPipeListenerQuick and Listen return an error and
    their trace is empty, whatever CreateNamedPipe would have answered. *)
Theorem Listen_refuses_bad_address_before_any_call :
  forall (address : string) (first : bool) (om pm mi ob ib tmo : Z)
         (sa : option Z) (cnp : Z + Z),
    ValidatePipeAddress address <> None \/ Go.hasNUL address = true ->
    (fst (NewPipeListener address om pm mi ob ib tmo sa cnp) = [] /\
     failure (snd (NewPipeListener address om pm mi ob ib tmo sa cnp)) <> None) /\
    (fst (NewPipeListenerQuick address first cnp) = [] /\
     failure (snd (NewPipeListenerQuick address first cnp)) <> None) /\
    (fst (Listen address cnp) = [] /\
     failure (snd (Listen address cnp)) <> None).
Proof.
  intros address first om pm mi ob ib tmo sa cnp H.
  assert (Hnew : forall om pm mi ob ib tmo sa,
    exists e, NewPipeListener address om pm mi ob ib tmo sa cnp = ([], inr e)).
  { intros. unfold NewPipeListener, UTF16PtrFromString.
    destruct (ValidatePipeAddress address) as [e|]; [eauto|].
    destruct H as [H|H]; [contradiction|]. rewrite H. eauto. }
  split; [|split].
  - destruct (Hnew om pm mi ob ib tmo sa) as [e ->]. split; [reflexivity|discriminate].
  - unfold NewPipeListenerQuick.
    destruct (Hnew (Go.uint32 (if first
                then Z.lor (Z.lor Windows.PIPE_ACCESS_DUPLEX Windows.FILE_FLAG_OVERLAPPED)
                       Windows.FILE_FLAG_FIRST_PIPE_INSTANCE
                else Z.lor Windows.PIPE_ACCESS_DUPLEX Windows.FILE_FLAG_OVERLAPPED))
                Windows.PIPE_TYPE_BYTE Windows.PIPE_UNLIMITED_INSTANCES 512 512 0 None)
      as [e ->].
    split; [reflexivity|discriminate].
  - unfold Listen, NewPipeListenerQuick.
    destruct (Hnew (Go.uint32 (Z.lor (Z.lor Windows.PIPE_ACCESS_DUPLEX
                                        Windows.FILE_FLAG_OVERLAPPED)
                                 Windows.FILE_FLAG_FIRST_PIPE_INSTANCE))
                Windows.PIPE_TYPE_BYTE Windows.PIPE_UNLIMITED_INSTANCES 512 512 0 None)
      as [e ->].
    split; [reflexivity|discriminate].
Qed.

(** X13: Listen and the first Accept. On a valid address Listen creates one
    instance, asking for the first instance of the pipe, and stores it; the
    first Accept that finds a client connected returns a connection on that
    very instance, under the address given to Listen, and creates none. *)
Theorem Listen_then_Accept_connects_on_the_first_instance :
  forall (address : string) (h h' : Z) (calls : nat -> AcceptCall),
    ValidatePipeAddress address = None ->
    Go.hasNUL address = false ->
    h <> 0 ->
    clientReady (calls 0%nat) h' ->
    exists l0 tr l',
      Listen address (inl h)
      = ([EvCreateNamedPipe address listenMode Windows.PIPE_TYPE_BYTE
            Windows.PIPE_UNLIMITED_INSTANCES 512 512 0 None],
         inl l0) /\
      Z.testbit listenMode 19 = true /\
      l_handle l0 = h /\
      Accept 1 (Some l0) calls
      = Some (tr, Returned (Some l', inl (mkPipeConn h address None None))) /\
      createdPipes tr = [] /\
      connectedHandles tr = [h] /\
      l_handle l' = 0.
Proof.
  intros address h h' calls Hv Hn Hh Hready.
  pose proof (ValidatePipeAddress_nonempty _ Hv) as Hne.
  exists (mkPipeListener address h false 0 None).
  assert (Hu : usable (mkPipeListener address h false 0 None)).
  { unfold usable. simpl. auto. }
  destruct Hready as (Hconn & [event Hev] & Hp).
  pose proof Hne as Hne'. apply String.eqb_neq in Hne'.
  assert (E : exists tr l',
    AcceptPipe (Some (mkPipeListener address h false 0 None))
      (call_os (calls 0%nat)) (call_others (calls 0%nat))
      (call_wait (calls 0%nat))
    = (tr, Returned (Some l', inl (mkPipeConn h address None None))) /\
    createdPipes tr = [] /\ connectedHandles tr = [h] /\ l_handle l' = 0).
  { unfold AcceptPipe, acceptIssue, acceptHandleFor. simpl.
    rewrite Hne', Hev. simpl.
    destruct (Z.eqb_spec h 0) as [|_]; [contradiction|].
    destruct Hconn as [-> | ->]; simpl;
      eexists _, _; (split; [reflexivity|]); simpl; auto. }
  destruct E as (tr & l' & E & Hcp & Hch & Hl).
  exists tr, l'. split; [|split; [reflexivity|split; [reflexivity|]]].
  - unfold Listen, NewPipeListenerQuick, NewPipeListener, UTF16PtrFromString.
    rewrite Hv, Hn. reflexivity.
  - unfold Accept. cbn [Accept_loop]. rewrite E. simpl. auto.
Qed.

(** *** Reads, writes and deadlines *)

Lemma Read_ioCall (c : PipeConn) (b : list Byte.byte) (os : IoOS) (event : Z) :
  io_event os = inl event ->
  Read c b os
  = (EvCreateEvent :: EvReadFile (handle c) (List.length b)
       :: fst (ioCall c (readDeadline c) event os),
     snd (ioCall c (readDeadline c) event os)).
Proof.
  intros H. unfold Read, ioCall, issued. rewrite H. simpl newOverlapped.
  cbv iota. destruct (withDeferredClose _ _). reflexivity.
Qed.

Lemma Write_ioCall (c : PipeConn) (b : list Byte.byte) (os : IoOS) (event : Z) :
  io_event os = inl event ->
  Write c b os
  = (EvCreateEvent :: EvWriteFile (handle c) b
       :: fst (ioCall c (writeDeadline c) event os),
     snd (ioCall c (writeDeadline c) event os)).
Proof.
  intros H. unfold Write, ioCall, issued. rewrite H. simpl newOverlapped.
  cbv iota. destruct (withDeferredClose _ _). reflexivity.
Qed.

Lemma released_app (tr tr' : list Event) :
  released (tr ++ tr') = (released tr ++ released tr')%list.
Proof. apply flat_map_app. Qed.

(** The event is released exactly when the call returns. *)
Lemma ioCall_releases_event (c : PipeConn) (deadline : option Z) (event : Z)
    (os : IoOS) :
  released (fst (ioCall c deadline event os))
  = match snd (ioCall c deadline event os) with
    | Returned _ => [event]
    | Blocked => []
    end.
Proof.
  unfold ioCall, completeRequest, waitForCompletion.
  destruct (isPending (err (issued os))); [|reflexivity].
  destruct (armTimer deadline (io_now os)) as [fire|];
    destruct (selectDoneOrTimer _ (io_completion os) (io_tie os)) as [w| |];
    try reflexivity;
    destruct (wait_err w); try reflexivity;
    destruct (result_err w); reflexivity.
Qed.

(** Without a timer a call is the call without deadline, and no timeout. *)
Lemma ioCall_without_timer (c : PipeConn) (deadline : option Z) (event : Z)
    (os : IoOS) :
  armTimer deadline (io_now os) = None ->
  ioCall c deadline event os = ioCall c None event os /\
  timedOut (snd (ioCall c deadline event os)) = false /\
  cancelled (fst (ioCall c deadline event os)) = [].
Proof.
  intros Ht.
  assert (E : ioCall c deadline event os = ioCall c None event os).
  { unfold ioCall.
    rewrite (completeRequest_no_timer_as_nil c c _ deadline event os
               eq_refl eq_refl Ht).
    reflexivity. }
  split; [exact E|]. rewrite E.
  unfold ioCall, completeRequest, waitForCompletion, waitFailure,
    overlappedResultFailure. simpl armTimer.
  destruct (isPending (err (issued os))).
  - destruct (io_completion os) as [[t w]|]; simpl; [|auto].
    destruct (wait_err w); [|destruct (result_err w)]; simpl; auto.
  - simpl. split; [|reflexivity].
    unfold issued. simpl. destruct (snd (io_issue os)) as [e|]; simpl;
      [|reflexivity].
    destruct (e =? Windows.ERROR_BROKEN_PIPE); reflexivity.
Qed.

(** A timer that fires after the completion changes nothing but the trace. *)
Lemma ioCall_completion_before_timer (c : PipeConn) (deadline : option Z)
    (event : Z) (os : IoOS) (fire t : Z) (w : WaitOS) :
  armTimer deadline (io_now os) = Some fire ->
  io_completion os = Some (t, w) ->
  t < fire ->
  snd (ioCall c deadline event os) = snd (ioCall c None event os) /\
  cancelled (fst (ioCall c deadline event os)) = [].
Proof.
  intros Ht Hc Hlt. unfold ioCall, completeRequest. rewrite Ht, Hc.
  simpl armTimer. simpl selectDoneOrTimer.
  destruct (Z.ltb_spec t fire); [|lia].
  destruct (isPending (err (issued os))); [|split; reflexivity].
  unfold waitForCompletion.
  destruct (wait_err w); [|destruct (result_err w)]; split; reflexivity.
Qed.

(** A timer that fires before the completion wins. *)
Lemma ioCall_timer_before_completion (c : PipeConn) (deadline : option Z)
    (event : Z) (os : IoOS) (fire : Z) :
  armTimer deadline (io_now os) = Some fire ->
  isPending (err (issued os)) = true ->
  (io_completion os = None \/
   exists t w, io_completion os = Some (t, w) /\ fire < t) ->
  snd (ioCall c deadline event os)
  = Returned (0, Some (PipeErr (timeout (addr c)))) /\
  cancelled (fst (ioCall c deadline event os)) = [handle c].
Proof.
  intros Ht Hp Hc.
  assert (Hsel : selectDoneOrTimer (Some fire) (io_completion os) (io_tie os)
                 = SelTimer).
  { destruct Hc as [->|(t & w & -> & Hlt)]; [reflexivity|].
    simpl. destruct (Z.ltb_spec t fire); [lia|].
    destruct (Z.ltb_spec fire t); [reflexivity|lia]. }
  unfold ioCall, completeRequest. rewrite Hp, Ht, Hsel. split; reflexivity.
Qed.

Lemma cancelled_cons_other (ev : Event) (tr : list Event) :
  (forall h, ev <> EvCancelIoEx h) -> cancelled (ev :: tr) = cancelled tr.
Proof.
  intros H. destruct ev; try reflexivity. exfalso. eapply H. reflexivity.
Qed.

(** X14: the event of a Read or Write is released on every way out. When
    CreateEvent succeeds, a call that returns (with a result, an error or a
    timeout) has closed the event exactly once and closed nothing else, and
    a call that stays blocked has closed nothing; when CreateEvent fails the
    call returns 0 bytes and an error without issuing the operation. *)
Theorem Read_Write_release_the_event_on_every_return :
  forall (c : PipeConn) (b : list Byte.byte) (os : IoOS),
    (forall event,
        io_event os = inl event ->
        released (fst (Read c b os))
        = match snd (Read c b os) with
          | Returned _ => [event]
          | Blocked => []
          end /\
        released (fst (Write c b os))
        = match snd (Write c b os) with
          | Returned _ => [event]
          | Blocked => []
          end) /\
    (forall e,
        io_event os = inr e ->
        fst (Read c b os) = [EvCreateEvent] /\
        fst (Write c b os) = [EvCreateEvent] /\
        (exists s, snd (Read c b os) = Returned (0, Some (ErrorString s))) /\
        (exists s, snd (Write c b os) = Returned (0, Some (ErrorString s)))).
Proof.
  intros c b os. split.
  - intros event Hev.
    rewrite (Read_ioCall c b os event Hev), (Write_ioCall c b os event Hev).
    simpl fst. simpl snd. simpl released.
    split; apply ioCall_releases_event.
  - intros e Hev. unfold Read, Write. rewrite Hev. simpl.
    repeat split; eauto.
Qed.

(** X15: a write deadline yields a timeout only when it lies strictly after
    the instant at which Write looks at the clock: then a pending write that
    has not completed by the deadline is cancelled and Write returns the
    timeout-flagged error. With the deadline unset, or not after the clock,
    Write behaves as without a deadline, never times out and cancels
    nothing. *)
Theorem Write_times_out_only_when_deadline_is_ahead :
  forall (c : PipeConn) (b : list Byte.byte) (os : IoOS),
    ((writeDeadline c = None \/
      exists d, writeDeadline c = Some d /\ d <= io_now os) ->
     Write c b os = Write (noWriteDeadline c) b os /\
     timedOut (snd (Write c b os)) = false /\
     cancelled (fst (Write c b os)) = []) /\
    (forall d event,
        writeDeadline c = Some d ->
        io_now os < d ->
        io_event os = inl event ->
        isPending (err (issued os)) = true ->
        (io_completion os = None \/
         exists t w, io_completion os = Some (t, w) /\ d < t) ->
        snd (Write c b os)
          = Returned (0, Some (PipeErr (timeout (addr c)))) /\
        timedOut (snd (Write c b os)) = true /\
        cancelled (fst (Write c b os)) = [handle c]).
Proof.
  intros c b os. split.
  - intros Hd.
    assert (Ht : armTimer (writeDeadline c) (io_now os) = None).
    { destruct Hd as [->|(d & -> & Hle)]; [reflexivity|].
      apply armTimer_not_after. exact Hle. }
    destruct (io_event os) as [event|e] eqn:Hev.
    + rewrite (Write_ioCall c b os event Hev),
        (Write_ioCall (noWriteDeadline c) b os event Hev).
      destruct (ioCall_without_timer c (writeDeadline c) event os Ht)
        as (E & Hto & Hcan).
      simpl. rewrite E. change (ioCall (noWriteDeadline c) None event os)
        with (ioCall c None event os).
      rewrite <- E. auto.
    + unfold Write. rewrite Hev. simpl. auto.
  - intros d event Hd Hnow Hev Hp Hc.
    destruct (armTimer_after d (io_now os) Hnow) as (fire & Hfire & Hrange).
    rewrite (Write_ioCall c b os event Hev). simpl fst. simpl snd.
    rewrite Hd.
    destruct (ioCall_timer_before_completion c (Some d) event os fire Hfire Hp)
      as (Hres & Hcan).
    { destruct Hc as [->|(t & w & -> & Hlt)]; [now left|].
      right. exists t, w. split; [reflexivity|lia]. }
    rewrite Hres. simpl. auto.
Qed.

(** X16: a deadline that lies after the completion of the operation does
    not change what Read and Write return, and nothing is cancelled. *)
Theorem deadline_after_completion_changes_no_result :
  forall (c : PipeConn) (b : list Byte.byte) (os : IoOS) (d t : Z)
         (w : WaitOS),
    io_completion os = Some (t, w) ->
    t < d ->
    d - io_now os <= Go.maxDuration ->
    (readDeadline c = Some d ->
     snd (Read c b os) = snd (Read (noDeadline c) b os) /\
     cancelled (fst (Read c b os)) = []) /\
    (writeDeadline c = Some d ->
     snd (Write c b os) = snd (Write (noWriteDeadline c) b os) /\
     cancelled (fst (Write c b os)) = []).
Proof.
  intros c b os d t w Hc Hlt Hmax.
  assert (Hcall : forall c' ev,
    handle c' = handle c -> addr c' = addr c ->
    snd (ioCall c (Some d) ev os) = snd (ioCall c' None ev os) /\
    cancelled (fst (ioCall c (Some d) ev os)) = []).
  { intros c' ev Hh Ha.
    assert (Esame : ioCall c' None ev os = ioCall c None ev os).
    { unfold ioCall, completeRequest. rewrite Hh, Ha. reflexivity. }
    rewrite Esame.
    destruct (Z.le_gt_cases d (io_now os)) as [Hle|Hgt].
    - destruct (ioCall_without_timer c (Some d) ev os
                  (armTimer_not_after _ _ Hle)) as (E & _ & Hcan).
      rewrite E in *. auto.
    - assert (Hfire : armTimer (Some d) (io_now os) = Some d).
      { unfold armTimer, Go.Sub. unfold Go.maxDuration in Hmax.
        assert (0 < 2 ^ 63) by reflexivity.
        destruct (Z.ltb_spec (d - io_now os) Go.minDuration) as [H1|H1];
          [unfold Go.minDuration in H1; lia|].
        destruct (Z.ltb_spec Go.maxDuration (d - io_now os)) as [H2|H2];
          [unfold Go.maxDuration in H2; lia|].
        destruct (Z.ltb_spec 0 (d - io_now os)); [|lia].
        f_equal. lia. }
      exact (ioCall_completion_before_timer c (Some d) ev os d t w Hfire Hc Hlt). }
  split; intros Hd.
  - destruct (io_event os) as [event|e] eqn:Hev.
    + rewrite (Read_ioCall c b os event Hev),
        (Read_ioCall (noDeadline c) b os event Hev).
      simpl fst. simpl snd. rewrite Hd.
      destruct (Hcall (noDeadline c) event eq_refl eq_refl) as [E Hcan].
      split; [exact E|exact Hcan].
    + unfold Read. rewrite Hev. simpl. auto.
  - destruct (io_event os) as [event|e] eqn:Hev.
    + rewrite (Write_ioCall c b os event Hev),
        (Write_ioCall (noWriteDeadline c) b os event Hev).
      simpl fst. simpl snd. rewrite Hd.
      destruct (Hcall (noWriteDeadline c) event eq_refl eq_refl) as [E Hcan].
      split; [exact E|exact Hcan].
    + unfold Write. rewrite Hev. simpl. auto.
Qed.

(** X17: the zero time means no deadline. After SetDeadline with the zero
    time, or with any instant that is not after the clock, Read and Write
    behave as on a connection without deadlines: they never time out and
    cancel nothing. *)
Theorem SetDeadline_not_ahead_means_no_deadline :
  forall (c : PipeConn) (t : Z) (b : list Byte.byte) (os : IoOS),
    t <= io_now os ->
    let c' := fst (SetDeadline c t) in
    let bare := mkPipeConn (handle c) (addr c) None None in
    snd (Read c' b os) = snd (Read bare b os) /\
    snd (Write c' b os) = snd (Write bare b os) /\
    timedOut (snd (Read c' b os)) = false /\
    timedOut (snd (Write c' b os)) = false /\
    cancelled (fst (Read c' b os)) = [] /\
    cancelled (fst (Write c' b os)) = [] /\
    (Go.zeroTime <= io_now os ->
     timedOut (snd (Read (fst (SetDeadline c Go.zeroTime)) b os)) = false /\
     timedOut (snd (Write (fst (SetDeadline c Go.zeroTime)) b os)) = false).
Proof.
  intros c t b os Hle c' bare.
  assert (Hgen : forall t', t' <= io_now os ->
    let c'' := fst (SetDeadline c t') in
    (snd (Read c'' b os) = snd (Read bare b os) /\
     timedOut (snd (Read c'' b os)) = false /\
     cancelled (fst (Read c'' b os)) = []) /\
    (snd (Write c'' b os) = snd (Write bare b os) /\
     timedOut (snd (Write c'' b os)) = false /\
     cancelled (fst (Write c'' b os)) = [])).
  { intros t' Hle' c''.
    pose proof (armTimer_not_after t' (io_now os) Hle') as Ht.
    destruct (io_event os) as [event|e] eqn:Hev.
    - rewrite (Read_ioCall c'' b os event Hev), (Read_ioCall bare b os event Hev),
        (Write_ioCall c'' b os event Hev), (Write_ioCall bare b os event Hev).
      simpl fst. simpl snd.
      destruct (ioCall_without_timer c'' (Some t') event os Ht) as (E & Hto & Hcan).
      change (ioCall bare None event os) with (ioCall c'' None event os).
      rewrite <- E. auto.
    - unfold Read, Write. rewrite Hev. simpl. auto. }
  destruct (Hgen t Hle) as ((R1 & R2 & R3) & (W1 & W2 & W3)).
  repeat split; auto.
  - destruct (Hgen Go.zeroTime H) as ((_ & R & _) & _). exact R.
  - destruct (Hgen Go.zeroTime H) as (_ & (_ & W & _)). exact W.
Qed.

(** *** Dialing, once more *)

(** X18: dial opens the pipe only after a wait that left no error. It makes
    no system call for an address with a NUL byte, issues CreateFile exactly
    when the address has none and WaitNamedPipeW left the last-error code 0,
    and returns a connection exactly when, moreover, CreateFile succeeded;
    the connection is on the handle of CreateFile, under the address dialed,
    without deadlines. *)
Theorem dial_connects_exactly_after_a_clean_wait :
  forall (address : string) (t : Z) (os : DialOS),
    (fst (dial address t os) = [] <-> Go.hasNUL address = true) /\
    (In (EvCreateFile address) (fst (dial address t os)) <->
     Go.hasNUL address = false /\ wnp_lasterr os = 0) /\
    (failure (snd (dial address t os)) = None <->
     Go.hasNUL address = false /\ wnp_lasterr os = 0 /\ cf_err os = None) /\
    (forall conn, snd (dial address t os) = inl conn ->
                  conn = mkPipeConn (cf_handle os) address None None).
Proof.
  clear unicodeLower ParseIP.
  intros address t os.
  unfold dial, UTF16PtrFromString, waitNamedPipe, waitNamedPipeFailure,
    utf16Failure, createFileFailure.
  destruct (Go.hasNUL address) eqn:Hn;
    [|destruct (Z.eqb_spec (wnp_lasterr os) 0) as [He|He];
      [destruct (cf_err os) as [e|]|]];
    simpl;
    (split; [|split; [|split]]);
    try (intros conn Hconn; injection Hconn as <-; reflexivity);
    try (intros conn Hconn; discriminate Hconn);
    intuition (try discriminate; try congruence; auto).
Qed.

(** X19: DialTimeout returns after one attempt at most. For every address,
    duration, clock and answer of the platform one turn of its loop decides:
    it never pauses; when the deadline has passed at its first look at the
    clock it makes no system call and returns its timeout-flagged error; and
    a timeout-flagged error is returned in that case only. *)
Theorem DialTimeout_decides_in_one_attempt :
  forall (fuel : nat) (address : string) (timeout : Z) (os : nat -> DialOS)
         (clock : nat -> Z),
    exists tr r,
      DialTimeout (S fuel) address timeout os clock = Some (tr, r) /\
      pauses tr = [] /\
      (List.length (attempts tr) <= 1)%nat /\
      (clock 0%nat + timeout <= clock 1%nat ->
       tr = [] /\ r = inr (PipeErr (dialTimedOut address))) /\
      (timeoutFlagged (failure r) = true ->
       tr = [] /\ clock 0%nat + timeout <= clock 1%nat).
Proof.
  intros fuel address tmo os clock. unfold DialTimeout, Go.Add.
  rewrite DialTimeout_loop_one_attempt. unfold Go.Before.
  destruct (Z.ltb_spec (clock 1%nat) (clock 0%nat + tmo)) as [Hlt|Hge].
  - destruct (dial address _ (os 0%nat)) as [tr r] eqn:E.
    exists tr, r. split; [reflexivity|].
    assert (Hshape : pauses tr = [] /\ (List.length (attempts tr) <= 1)%nat).
    { revert E. unfold dial, UTF16PtrFromString, waitNamedPipe.
      destruct (Go.hasNUL address);
        [|destruct (negb (wnp_lasterr (os 0%nat) =? 0))];
        intros [= <- <-]; simpl; split; auto. }
    destruct Hshape as [Hp Ha]. repeat split; auto; try lia.
    + destruct r as [conn|e]; [discriminate|].
      destruct (dial_failure_is_ErrorString _ _ _ _ _ E) as [s ->].
      discriminate.
    + destruct r as [conn|e]; [discriminate|].
      destruct (dial_failure_is_ErrorString _ _ _ _ _ E) as [s ->].
      discriminate.
  - eexists _, _. split; [reflexivity|]. simpl. repeat split; auto.
Qed.

(** X20: the wait DialTimeout hands to the platform is the time left to the
    deadline in whole milliseconds. For a deadline less than 2^32
    milliseconds ahead, the attempt waits for at most the time left and
    falls short of it by less than one millisecond. *)
Theorem DialTimeout_waits_for_the_time_left :
  forall (fuel : nat) (address : string) (timeout : Z) (os : nat -> DialOS)
         (clock : nat -> Z),
    Go.hasNUL address = false ->
    clock 1%nat < clock 0%nat + timeout ->
    clock 0%nat + timeout - clock 1%nat < 2 ^ 32 * Go.Millisecond ->
    exists millis tr r,
      DialTimeout (S fuel) address timeout os clock = Some (tr, r) /\
      attempts tr = [EvWaitNamedPipe address millis] /\
      0 <= millis < 2 ^ 32 /\
      millis * Go.Millisecond <= clock 0%nat + timeout - clock 1%nat
        < (millis + 1) * Go.Millisecond.
Proof.
  intros fuel address tmo os clock Hn Hlt Hspan.
  set (left := clock 0%nat + tmo - clock 1%nat) in *.
  assert (Hms : Go.Millisecond = 1000000) by reflexivity.
  assert (H32 : 2 ^ 32 = 4294967296) by reflexivity.
  assert (Hsub : Go.Sub (clock 0%nat + tmo) (clock 1%nat) = left).
  { unfold Go.Sub, Go.minDuration, Go.maxDuration. fold left.
    assert (2 ^ 63 = 9223372036854775808) by reflexivity.
    destruct (Z.ltb_spec left (- 2 ^ 63)); [lia|].
    destruct (Z.ltb_spec (2 ^ 63 - 1) left); [lia|]. reflexivity. }
  assert (Hq : Z.quot left Go.Millisecond = left / Go.Millisecond).
  { apply Z.quot_div_nonneg; lia. }
  assert (Hdiv : 0 <= left / Go.Millisecond < 2 ^ 32).
  { split; [apply Z.div_pos; lia|]. apply Z.div_lt_upper_bound; lia. }
  assert (Hm : Go.uint32 (Z.quot (Go.Sub (clock 0%nat + tmo) (clock 1%nat))
                            Go.Millisecond) = left / Go.Millisecond).
  { rewrite Hsub, Hq. unfold Go.uint32. apply Z.mod_small. exact Hdiv. }
  exists (left / Go.Millisecond).
  unfold DialTimeout, Go.Add. rewrite DialTimeout_loop_one_attempt.
  unfold Go.Before. destruct (Z.ltb_spec (clock 1%nat) (clock 0%nat + tmo)); [|lia].
  rewrite Hm.
  destruct (dial address (left / Go.Millisecond) (os 0%nat)) as [tr r] eqn:E.
  exists tr, r. split; [reflexivity|]. split; [|split; [exact Hdiv|]].
  - revert E. unfold dial, UTF16PtrFromString, waitNamedPipe. rewrite Hn.
    destruct (negb (wnp_lasterr (os 0%nat) =? 0)); intros [= <- <-]; reflexivity.
  - pose proof (Z.mul_div_le left Go.Millisecond) as H1.
    pose proof (Z.mul_succ_div_gt left Go.Millisecond) as H2.
    rewrite Hms in *. lia.
Qed.

(** The connection [dial] returns. *)
Lemma dial_connection (address : string) (t : Z) (os : DialOS) :
  forall tr conn,
    dial address t os = (tr, inl conn) ->
    conn = mkPipeConn (cf_handle os) address None None.
Proof.
  intros tr conn. unfold dial, UTF16PtrFromString, waitNamedPipe.
  destruct (Go.hasNUL address); [discriminate|].
  destruct (negb (wnp_lasterr os =? 0)); simpl; [discriminate|].
  destruct (cf_err os); [discriminate|]. intros [= <- <-]. reflexivity.
Qed.

Lemma Read_Write_without_deadline (c : PipeConn) (b : list Byte.byte)
    (os : IoOS) :
  (readDeadline c = None -> timedOut (snd (Read c b os)) = false) /\
  (writeDeadline c = None -> timedOut (snd (Write c b os)) = false).
Proof.
  split; intros Hd.
  - destruct (io_event os) as [event|e] eqn:Hev.
    + rewrite (Read_ioCall c b os event Hev), Hd. simpl.
      apply (ioCall_without_timer c None event os eq_refl).
    + unfold Read. rewrite Hev. reflexivity.
  - destruct (io_event os) as [event|e] eqn:Hev.
    + rewrite (Write_ioCall c b os event Hev), Hd. simpl.
      apply (ioCall_without_timer c None event os eq_refl).
    + unfold Write. rewrite Hev. reflexivity.
Qed.

(** X21: a connection from Dial or DialTimeout is on the handle CreateFile
    returned, under the address dialed, and has no deadline: until a
    deadline is set its Read and Write never time out. *)
Theorem dialed_connection_has_no_deadline :
  forall (fuel : nat) (address : string) (timeout : Z) (os : nat -> DialOS)
         (clock : nat -> Z) (tr : list Event) (conn : PipeConn),
    Dial fuel address os = Some (tr, inl conn) \/
    DialTimeout fuel address timeout os clock = Some (tr, inl conn) ->
    conn = mkPipeConn (cf_handle (os 0%nat)) address None None /\
    LocalAddr conn = address /\ RemoteAddr conn = address /\
    (forall b ios,
        timedOut (snd (Read conn b ios)) = false /\
        timedOut (snd (Write conn b ios)) = false).
Proof.
  intros fuel address tmo os clock tr conn H.
  assert (Hdial : exists t tr', dial address t (os 0%nat) = (tr', inl conn)).
  { destruct fuel as [|fuel]; [destruct H; discriminate|].
    destruct H as [H|H].
    - unfold Dial in H. rewrite Dial_loop_one_attempt in H.
      destruct (dial address 4294967295 (os 0%nat)) as [tr' [c'|e]] eqn:E;
        [|discriminate].
      injection H as <- <-. eauto.
    - unfold DialTimeout in H. rewrite DialTimeout_loop_one_attempt in H.
      destruct (Go.Before _ _); [|discriminate].
      destruct (dial address _ (os 0%nat)) as [tr' [c'|e]] eqn:E;
        [|discriminate].
      injection H as <- <-. eauto. }
  destruct Hdial as (t & tr' & E).
  apply dial_connection in E. subst conn.
  repeat split; apply Read_Write_without_deadline; reflexivity.
Qed.

End Npipe.

(** ** Examples on sample values *)

(** Validation at work: the pipe literal in upper case and a dotted-decimal
    host pass; four segments, or a host name, do not. *)
Example ValidatePipeAddress_upper_case_literal :
  ValidatePipeAddress sampleUnicodeLower sampleParseIP "\\.\PIPE\srvsvc" = None.
Proof. reflexivity. Qed.

Example ValidatePipeAddress_remote_host :
  ValidatePipeAddress sampleUnicodeLower sampleParseIP "\\10.0.0.1\pipe\srvsvc"
  = None.
Proof. reflexivity. Qed.

Example ValidatePipeAddress_four_segments :
  ValidatePipeAddress sampleUnicodeLower sampleParseIP "\\.\pipe" <> None.
Proof. discriminate. Qed.

(** The zero time as a deadline arms no timer: the read is waited for. *)
Example Read_zero_deadline_waits :
  snd (Read sampleErrnoText (sampleConn (Some Go.zeroTime)) sampleBuffer
         samplePendingOS)
  = Returned (3, None).
Proof. reflexivity. Qed.

(** The deadline in the past, evaluated: with the read deadline at instant 5
    and the clock at 10, a pending read that completes at instant 20 with 3
    bytes makes Read return these 3 bytes and no error, and a pending read
    that never completes leaves Read blocked; neither is a timeout. *)
Lemma Read_deadline_in_the_past_does_not_time_out :
  readDeadline (sampleConn (Some 5)) = Some 5 /\
  5 < io_now samplePendingOS /\
  5 < io_now sampleNeverOS /\
  Read sampleErrnoText (sampleConn (Some 5)) sampleBuffer samplePendingOS
    = ([EvCreateEvent; EvReadFile 7 4; EvWaitForSingleObject 9;
        EvGetOverlappedResult 7; EvCloseHandle 9],
       Returned (3, None)) /\
  timedOut
    (snd (Read sampleErrnoText (sampleConn (Some 5)) sampleBuffer samplePendingOS))
    = false /\
  Read sampleErrnoText (sampleConn (Some 5)) sampleBuffer sampleNeverOS
    = ([EvCreateEvent; EvReadFile 7 4; EvWaitForSingleObject 9], Blocked).
Proof.
  repeat split.
Qed.

(** C8 at work: a local pipe passes, a host name that is no IP address does
    not. *)
Lemma ValidatePipeAddress_accepts_local_rejects_malformed_witness :
  ValidatePipeAddress sampleUnicodeLower sampleParseIP ("\\.\pipe\" ++ "srvsvc")
    = None /\
  (nth 2 (Go.Split "\\host\pipe\srvsvc" Go.backslash) "" <> "." /\
   sampleParseIP (nth 2 (Go.Split "\\host\pipe\srvsvc" Go.backslash) "") = None) /\
  ValidatePipeAddress sampleUnicodeLower sampleParseIP "\\host\pipe\srvsvc"
    <> None.
Proof.
  pose proof (ValidatePipeAddress_accepts_local_rejects_malformed
                sampleUnicodeLower sampleParseIP) as [Hok Hbad].
  assert (Hhost : nth 2 (Go.Split "\\host\pipe\srvsvc" Go.backslash) "" <> "." /\
                  sampleParseIP
                    (nth 2 (Go.Split "\\host\pipe\srvsvc" Go.backslash) "") = None).
  { split; [vm_compute; discriminate | reflexivity]. }
  split; [exact (Hok "srvsvc")|]. split; [exact Hhost|].
  apply Hbad. right. right. exact Hhost.
Defined.

(** C7 at work: a read of 5 bytes that completes at issue time, under a
    deadline long past. *)
Lemma completeRequest_synchronous_returns_without_wait_witness :
  io_event sampleSyncOS = inl 9 /\
  isPending (err (issued sampleSyncOS)) = false /\
  Read sampleErrnoText (sampleConn (Some 5)) sampleBuffer sampleSyncOS
    = ([EvCreateEvent; EvReadFile 7 4; EvCloseHandle 9], Returned (5, None)).
Proof.
  split; [reflexivity|]. split; [reflexivity|].
  exact (proj1 (proj2
           (completeRequest_synchronous_returns_without_wait sampleErrnoText
              (sampleConn (Some 5)) sampleBuffer sampleSyncOS 9 None
              eq_refl eq_refl))).
Defined.

(** C5 at work: a deadline behind the clock gives no timeout; a deadline
    ahead of the clock and before the completion gives one. *)
Lemma Read_times_out_only_when_deadline_is_ahead_witness :
  (readDeadline (sampleConn (Some 5)) = Some 5 /\
   5 <= io_now sampleNeverOS /\
   timedOut
     (snd (Read sampleErrnoText (sampleConn (Some 5)) sampleBuffer sampleNeverOS))
     = false) /\
  (readDeadline (sampleConn (Some 15)) = Some 15 /\
   io_now samplePendingOS < 15 /\
   io_event samplePendingOS = inl 9 /\
   isPending (err (issued samplePendingOS)) = true /\
   io_completion samplePendingOS = Some (20, mkWaitOS None 3 None) /\
   15 < 20 /\
   snd (Read sampleErrnoText (sampleConn (Some 15)) sampleBuffer samplePendingOS)
     = Returned (0, Some (PipeErr (timeout samplePipe)))).
Proof.
  assert (Hpast : 5 <= io_now sampleNeverOS) by (simpl; lia).
  assert (Hahead : io_now samplePendingOS < 15) by (simpl; lia).
  assert (Hlate : 15 < 20) by lia.
  split.
  - split; [reflexivity|]. split; [exact Hpast|].
    destruct (Read_times_out_only_when_deadline_is_ahead sampleErrnoText
                (sampleConn (Some 5)) sampleBuffer sampleNeverOS) as [H _].
    apply H. right. exists 5. split; [reflexivity|exact Hpast].
  - split; [reflexivity|]. split; [exact Hahead|]. split; [reflexivity|].
    split; [reflexivity|]. split; [reflexivity|]. split; [exact Hlate|].
    destruct (Read_times_out_only_when_deadline_is_ahead sampleErrnoText
                (sampleConn (Some 15)) sampleBuffer samplePendingOS) as [_ H].
    apply (H 15 9 eq_refl Hahead eq_refl eq_refl).
    right. exists 20, (mkWaitOS None 3 None). split; [reflexivity|exact Hlate].
Defined.

(** C3 at work: the pipe does not exist yet, and Dial gives up at once. *)
Lemma Dial_returns_not_ready_failure_without_retry_witness :
  Go.hasNUL samplePipe = false /\
  wnp_lasterr (sampleDialOS Windows.ERROR_FILE_NOT_FOUND 0%nat)
    = Windows.ERROR_FILE_NOT_FOUND /\
  Dial sampleErrnoText sampleEINVAL 5 samplePipe
    (sampleDialOS Windows.ERROR_FILE_NOT_FOUND)
    = Some ([EvWaitNamedPipe samplePipe 4294967295],
            inr (dialFailure sampleErrnoText
                   (waitNamedPipeFailure sampleErrnoText 0
                      (Errno Windows.ERROR_FILE_NOT_FOUND)))).
Proof.
  split; [reflexivity|]. split; [reflexivity|].
  apply (proj1 (Dial_returns_not_ready_failure_without_retry sampleErrnoText
                  sampleEINVAL 4 samplePipe
                  (sampleDialOS Windows.ERROR_FILE_NOT_FOUND) eq_refl)).
  left. reflexivity.
Defined.

(** C4 at work: the wait for the pipe times out within the 200ms, and the
    error carries no timeout flag. *)
Lemma DialTimeout_flags_deadline_but_not_platform_timeout_witness :
  Go.hasNUL samplePipe = false /\
  sampleClock 1 < sampleClock 0 + 200 * Go.Millisecond /\
  wnp_lasterr (sampleDialOS Windows.ERROR_SEM_TIMEOUT 0%nat)
    = Windows.ERROR_SEM_TIMEOUT /\
  exists tr e,
    DialTimeout sampleErrnoText sampleEINVAL 5 samplePipe (200 * Go.Millisecond)
      (sampleDialOS Windows.ERROR_SEM_TIMEOUT) sampleClock = Some (tr, inr e) /\
    timeoutFlagged (Some e) = false.
Proof.
  assert (Hclock : sampleClock 1 < sampleClock 0 + 200 * Go.Millisecond)
    by (vm_compute; reflexivity).
  split; [reflexivity|]. split; [exact Hclock|]. split; [reflexivity|].
  destruct (proj2 (DialTimeout_flags_deadline_but_not_platform_timeout
                     sampleErrnoText sampleEINVAL 4 samplePipe
                     (200 * Go.Millisecond)
                     (sampleDialOS Windows.ERROR_SEM_TIMEOUT) sampleClock eq_refl)
              Hclock (or_introl eq_refl))
    as (tr & e & Hrun & _ & Hflag & _).
  exists tr, e. split; [exact Hrun|exact Hflag].
Defined.

(** C6 at work: an address the platform refuses as a bad path name. *)
Lemma Dial_bad_path_name_is_not_badAddr_witness :
  Go.hasNUL "mypipe" = false /\
  wnp_lasterr (sampleDialOS Windows.ERROR_BAD_PATHNAME 0%nat)
    = Windows.ERROR_BAD_PATHNAME /\
  Dial sampleErrnoText sampleEINVAL 5 "mypipe"
    (sampleDialOS Windows.ERROR_BAD_PATHNAME)
    = Some ([EvWaitNamedPipe "mypipe" 4294967295],
            inr (dialFailure sampleErrnoText
                   (waitNamedPipeFailure sampleErrnoText 0
                      (Errno Windows.ERROR_BAD_PATHNAME)))).
Proof.
  split; [reflexivity|]. split; [reflexivity|].
  exact (proj1 (Dial_bad_path_name_is_not_badAddr sampleErrnoText sampleEINVAL
                  4 "mypipe" (200 * Go.Millisecond)
                  (sampleDialOS Windows.ERROR_BAD_PATHNAME) sampleClock
                  eq_refl eq_refl)).
Defined.

(** C2 at work: a pending connect on handle 7, cancelled by Close. *)
Lemma AcceptPipe_pending_connect_cancelled_is_not_ErrClosed_witness :
  acceptIssue sampleErrnoText sampleEINVAL sampleListener samplePendingAccept
    = ([EvCreateEvent; EvConnectNamedPipe 7],
       (mkPipeListener samplePipe 0 false 7 (Some 9), AcceptWaiting 7 9)) /\
  7 <> 0 /\
  wait_err sampleAbortedWait = None /\
  result_err sampleAbortedWait = Some Windows.ERROR_OPERATION_ABORTED /\
  In (EvCancelIoEx 7)
     (fst (PipeListener_Close sampleErrnoText
             (mkPipeListener samplePipe 0 false 7 (Some 9)) sampleCloseOS)) /\
  exists tr' l2,
    AcceptPipe sampleErrnoText sampleEINVAL (Some sampleListener)
      samplePendingAccept
      (fun x => fst (snd (PipeListener_Close sampleErrnoText x sampleCloseOS)))
      (Some sampleAbortedWait)
    = (tr', Returned
              (Some l2,
               inr (overlappedResultFailure sampleErrnoText
                      (Errno Windows.ERROR_OPERATION_ABORTED)))).
Proof.
  assert (Hh : 7 <> 0) by discriminate.
  split; [reflexivity|]. split; [exact Hh|]. split; [reflexivity|].
  split; [reflexivity|].
  destruct (AcceptPipe_pending_connect_cancelled_is_not_ErrClosed
              sampleErrnoText sampleEINVAL sampleListener samplePendingAccept
              sampleCloseOS sampleAbortedWait _ _ 7 9 eq_refl Hh eq_refl eq_refl)
    as (Hcancel & _ & Hrun & _).
  split; [exact Hcancel|exact Hrun].
Defined.

(** C9 at work: the listener built on handle 7; its first AcceptPipe finds a
    client and returns the connection on handle 7 without creating an
    instance; the next AcceptPipe, on the listener the first one handed back,
    creates an instance under the same name, gets handle 10 and returns the
    connection on it. *)
Lemma first_AcceptPipe_takes_stored_handle_witness :
  NewPipeListener sampleErrnoText sampleUnicodeLower sampleParseIP sampleEINVAL
    samplePipe 1074266115 0 255 512 512 0 None (inl 7)
    = ([EvCreateNamedPipe samplePipe 1074266115 0 255 512 512 0 None],
       inl sampleListener) /\
  7 <> 0 /\
  (ac_event (mkAcceptOS (inl 8) (inl 9) None) = inl 9 /\
   AcceptPipe sampleErrnoText sampleEINVAL (Some sampleListener)
     (mkAcceptOS (inl 8) (inl 9) None) (fun x => x) None
   = ([EvCreateEvent; EvConnectNamedPipe 7; EvCloseHandle 9],
      Returned (Some (mkPipeListener samplePipe 0 false 0 None),
                inl (mkPipeConn 7 samplePipe None None)))) /\
  (l_addr (mkPipeListener samplePipe 0 false 0 None) = samplePipe /\
   closed (mkPipeListener samplePipe 0 false 0 None) = false /\
   l_handle (mkPipeListener samplePipe 0 false 0 None) = 0 /\
   ac_event (mkAcceptOS (inl 10) (inl 11) None) = inl 11 /\
   ac_pipe (mkAcceptOS (inl 10) (inl 11) None) = inl 10 /\
   AcceptPipe sampleErrnoText sampleEINVAL
     (Some (mkPipeListener samplePipe 0 false 0 None))
     (mkAcceptOS (inl 10) (inl 11) None) (fun x => x) None
   = ([EvCreateNamedPipe samplePipe 1073741827 0 255 512 512 0 None;
       EvCreateEvent; EvConnectNamedPipe 10; EvCloseHandle 11],
      Returned (Some (mkPipeListener samplePipe 0 false 0 None),
                inl (mkPipeConn 10 samplePipe None None)))) /\
  (forall os others w,
      createdPipes
        (fst (AcceptPipe sampleErrnoText sampleEINVAL
                (Some (mkPipeListener samplePipe 0 false 0 None)) os others w))
      = [EvCreateNamedPipe samplePipe 1073741827 0 255 512 512 0 None]).
Proof.
  assert (Hh : 7 <> 0) by discriminate.
  destruct (first_AcceptPipe_takes_stored_handle_later_ones_create_instances
              sampleErrnoText sampleUnicodeLower sampleParseIP sampleEINVAL
              samplePipe 1074266115 0 255 512 512 0 None 7 _ sampleListener
              eq_refl Hh) as (_ & Hfirst & Hlater & _).
  split; [reflexivity|]. split; [exact Hh|]. split; [|split].
  - split; [reflexivity|].
    exact (proj1 (proj2 (proj2
             (Hfirst (mkAcceptOS (inl 8) (inl 9) None) (fun x => x) None)))
             9 eq_refl (or_introl eq_refl)).
  - split; [reflexivity|]. split; [reflexivity|]. split; [reflexivity|].
    split; [reflexivity|]. split; [reflexivity|].
    exact (proj1 (proj2 (proj2
             (Hlater (mkPipeListener samplePipe 0 false 0 None)
                (mkAcceptOS (inl 10) (inl 11) None) (fun x => x) None
                eq_refl eq_refl eq_refl)))
             11 10 eq_refl eq_refl (or_introl eq_refl)).
  - intros os others w.
    exact (proj1 (Hlater (mkPipeListener samplePipe 0 false 0 None) os others w
                    eq_refl eq_refl eq_refl)).
Defined.

(** ** Further examples on sample values *)

(** X1 at work: a Close whose disconnect fails, then a second Close. *)
Lemma PipeListener_Close_takes_effect_once_witness :
  closed sampleListener = false /\
  l_handle sampleListener <> 0 /\
  cl_disconnect_lasterr sampleFailedClose <> 0 /\
  l_handle (afterClose sampleErrnoText sampleListener sampleFailedClose)
    = l_handle sampleListener /\
  released
    (fst (PipeListener_Close sampleErrnoText
            (afterClose sampleErrnoText sampleListener sampleFailedClose)
            sampleCloseOS)) = [].
Proof.
  assert (H7 : l_handle sampleListener <> 0) by discriminate.
  assert (H5 : cl_disconnect_lasterr sampleFailedClose <> 0) by discriminate.
  split; [reflexivity|]. split; [exact H7|]. split; [exact H5|].
  destruct (PipeListener_Close_takes_effect_once sampleErrnoText sampleListener
              sampleFailedClose sampleCloseOS) as (_ & _ & _ & H).
  destruct (H eq_refl H7 H5) as (_ & _ & Hkept & Hnone).
  split; [exact Hkept|exact Hnone].
Defined.

(** X2 at work: a listener without address. *)
Lemma AcceptPipe_refuses_closed_unnamed_and_nil_listeners_witness :
  l_addr sampleUnnamed = "" /\
  AcceptPipe sampleErrnoText sampleEINVAL (Some sampleUnnamed)
    samplePendingAccept (fun x => x) None
  = ([], Returned (Some sampleUnnamed, inr acceptRefused)).
Proof.
  split; [reflexivity|].
  exact (proj1 (proj2
           (AcceptPipe_refuses_closed_unnamed_and_nil_listeners
              sampleErrnoText sampleEINVAL samplePendingAccept (fun x => x)
              None)) sampleUnnamed eq_refl).
Defined.

(** X3 at work: an accept that finds its client, then Close. *)
Lemma PipeListener_Close_after_AcceptPipe_makes_no_call_witness :
  l_addr sampleListener <> "" /\
  closed sampleListener = false /\
  idle sampleListener /\
  AcceptPipe sampleErrnoText sampleEINVAL (Some sampleListener)
    (call_os sampleReadyClient) (fun x => x) None
  = ([EvCreateEvent; EvConnectNamedPipe 7; EvCloseHandle 11],
     Returned (Some (mkPipeListener samplePipe 0 false 0 None),
               inl (mkPipeConn 7 samplePipe None None))) /\
  fst (PipeListener_Close sampleErrnoText
         (mkPipeListener samplePipe 0 false 0 None) sampleCloseOS) = [].
Proof.
  assert (Ha : l_addr sampleListener <> "") by discriminate.
  assert (Hi : idle sampleListener) by (split; reflexivity).
  split; [exact Ha|]. split; [reflexivity|]. split; [exact Hi|].
  split; [reflexivity|].
  exact (proj1 (PipeListener_Close_after_AcceptPipe_makes_no_call
                  sampleErrnoText sampleEINVAL sampleListener
                  (call_os sampleReadyClient) None sampleCloseOS _ _ _
                  Ha eq_refl Hi eq_refl)).
Defined.

(** X4 at work: the disconnect of the stored instance. *)
Lemma PipeListener_Close_acts_only_on_held_handles_witness :
  In (EvDisconnectNamedPipe 7)
     (fst (PipeListener_Close sampleErrnoText sampleListener sampleCloseOS)) /\
  exists h,
    target (EvDisconnectNamedPipe 7) = Some h /\
    In h (heldHandles sampleListener).
Proof.
  assert (Hin : In (EvDisconnectNamedPipe 7)
                  (fst (PipeListener_Close sampleErrnoText sampleListener
                          sampleCloseOS))) by (left; reflexivity).
  split; [exact Hin|].
  exact (proj1 (PipeListener_Close_acts_only_on_held_handles sampleErrnoText
                  sampleListener sampleCloseOS) _ Hin).
Defined.

(** X5 at work: Close while the accept on handle 7 waits on event 9. *)
Lemma Close_during_accept_releases_what_AcceptPipe_still_uses_witness :
  acceptIssue sampleErrnoText sampleEINVAL sampleListener samplePendingAccept
    = ([EvCreateEvent; EvConnectNamedPipe 7],
       (mkPipeListener samplePipe 0 false 7 (Some 9), AcceptWaiting 7 9)) /\
  7 <> 0 /\
  cl_cancel sampleCloseOS = None /\
  cl_close_event sampleCloseOS = None /\
  released
    (fst (PipeListener_Close sampleErrnoText
            (mkPipeListener samplePipe 0 false 7 (Some 9)) sampleCloseOS))
    = [9; 7] /\
  released
    (fst (acceptComplete sampleErrnoText
            (afterClose sampleErrnoText
               (mkPipeListener samplePipe 0 false 7 (Some 9)) sampleCloseOS)
            7 9 sampleAbortedWait))
    = [9].
Proof.
  assert (Hh : 7 <> 0) by discriminate.
  split; [reflexivity|]. split; [exact Hh|]. split; [reflexivity|].
  split; [reflexivity|].
  destruct (Close_during_accept_releases_what_AcceptPipe_still_uses
              sampleErrnoText sampleEINVAL sampleListener samplePendingAccept
              sampleCloseOS sampleAbortedWait _ _ 7 9 eq_refl Hh eq_refl eq_refl)
    as (H1 & H2 & _).
  split; [exact H1|exact H2].
Defined.

(** X6 at work: the record of the accept that waits on handle 7. *)
Lemma AcceptPipe_records_accept_only_while_waiting_witness :
  l_addr sampleListener <> "" /\
  closed sampleListener = false /\
  idle sampleListener /\
  acceptIssue sampleErrnoText sampleEINVAL sampleListener samplePendingAccept
    = ([EvCreateEvent; EvConnectNamedPipe 7],
       (mkPipeListener samplePipe 0 false 7 (Some 9), AcceptWaiting 7 9)) /\
  acceptHandle (mkPipeListener samplePipe 0 false 7 (Some 9)) = 7.
Proof.
  assert (Ha : l_addr sampleListener <> "") by discriminate.
  assert (Hi : idle sampleListener) by (split; reflexivity).
  split; [exact Ha|]. split; [reflexivity|]. split; [exact Hi|].
  split; [reflexivity|].
  exact (proj1 (proj1 (AcceptPipe_records_accept_only_while_waiting
                         sampleErrnoText sampleEINVAL sampleListener
                         samplePendingAccept None Ha eq_refl Hi)
                  _ _ 7 9 eq_refl)).
Defined.

(** X7 at work: the connection of the first accept is on the stored handle. *)
Lemma AcceptPipe_connection_is_on_the_connected_handle_witness :
  (forall x : PipeListener, l_addr x = l_addr x) /\
  AcceptPipe sampleErrnoText sampleEINVAL (Some sampleListener)
    (call_os sampleReadyClient) (fun x => x) None
  = ([EvCreateEvent; EvConnectNamedPipe 7; EvCloseHandle 11],
     Returned (Some (mkPipeListener samplePipe 0 false 0 None),
               inl (mkPipeConn 7 samplePipe None None))) /\
  addr (mkPipeConn 7 samplePipe None None) = l_addr sampleListener.
Proof.
  split; [reflexivity|]. split; [reflexivity|].
  exact (proj1 (AcceptPipe_connection_is_on_the_connected_handle
                  sampleErrnoText sampleEINVAL sampleListener
                  (call_os sampleReadyClient) (fun x => x) None _ _ _
                  (fun x => eq_refl) eq_refl)).
Defined.

(** X8 at work: two clients leave at once, the third stays. *)
Lemma Accept_never_returns_the_status_NO_DATA_witness :
  exists tr l' r,
    Accept sampleErrnoText sampleEINVAL 3 (Some sampleListener) sampleClients
    = Some (tr, Returned (l', r)) /\
    r <> inr (Errno Windows.ERROR_NO_DATA).
Proof.
  eexists _, _, _. split; [reflexivity|].
  exact (proj2 (Accept_never_returns_the_status_NO_DATA sampleErrnoText
                  sampleEINVAL 3 (Some sampleListener) sampleClients _ _ _
                  eq_refl)).
Defined.

(** X9 at work: the same three clients; the connection is on handle 10. *)
Lemma Accept_absorbs_clients_that_left_at_once_witness :
  usable sampleListener /\
  (forall i, (i < 2)%nat -> clientGone (sampleClients i)) /\
  clientReady (sampleClients 2) 10 /\
  exists tr l' conn,
    Accept sampleErrnoText sampleEINVAL 3 (Some sampleListener) sampleClients
    = Some (tr, Returned (Some l', inl conn)) /\
    handle conn = 10.
Proof.
  assert (Hu : usable sampleListener).
  { split; [discriminate|]. split; reflexivity. }
  assert (Hgone : forall i, (i < 2)%nat -> clientGone (sampleClients i)).
  { intros i Hi. destruct i as [|[|i]]; [| |lia];
      (split; [reflexivity|]; split; eexists; reflexivity). }
  assert (Hready : clientReady (sampleClients 2) 10).
  { split; [left; reflexivity|]. split; [eexists; reflexivity|reflexivity]. }
  split; [exact Hu|]. split; [exact Hgone|]. split; [exact Hready|].
  destruct (Accept_absorbs_clients_that_left_at_once sampleErrnoText
              sampleEINVAL sampleListener sampleClients 2 10 Hu Hgone Hready)
    as (tr & l' & conn & E & _ & _ & _ & Hh).
  exists tr, l', conn. split; [exact E|]. apply Hh. left. discriminate.
Defined.

(** X10 at work: the client leaves while the connect is pending. *)
Lemma Accept_returns_NO_DATA_that_came_through_the_wait_witness :
  acceptIssue sampleErrnoText sampleEINVAL sampleListener
    (call_os sampleGoneLater)
    = ([EvCreateEvent; EvConnectNamedPipe 7],
       (mkPipeListener samplePipe 0 false 7 (Some 9), AcceptWaiting 7 9)) /\
  call_wait sampleGoneLater = Some (mkWaitOS None 0 (Some Windows.ERROR_NO_DATA)) /\
  exists tr' l2,
    Accept sampleErrnoText sampleEINVAL 3 (Some sampleListener)
      (fun _ => sampleGoneLater)
    = Some (tr', Returned
                   (Some l2,
                    inr (overlappedResultFailure sampleErrnoText
                           (Errno Windows.ERROR_NO_DATA)))).
Proof.
  split; [reflexivity|]. split; [reflexivity|].
  destruct (Accept_returns_NO_DATA_that_came_through_the_wait sampleErrnoText
              sampleEINVAL 2 sampleListener (fun _ => sampleGoneLater)
              (mkWaitOS None 0 (Some Windows.ERROR_NO_DATA)) _ _ 7 9
              eq_refl eq_refl eq_refl eq_refl)
    as (tr' & l2 & E & _).
  exists tr', l2. exact E.
Defined.

(** X11 at work: an address that does not begin with two backslashes. *)
Lemma ValidatePipeAddress_ignores_leading_segments_witness :
  segment "x" /\ segment "y" /\
  ValidatePipeAddress sampleUnicodeLower sampleParseIP "x\y\.\pipe\n" = None.
Proof.
  split; [reflexivity|]. split; [reflexivity|].
  exact (ValidatePipeAddress_ignores_leading_segments sampleUnicodeLower
           sampleParseIP "x" "y" "n" eq_refl eq_refl).
Defined.

(** X12 at work: an address of four segments. *)
Lemma Listen_refuses_bad_address_before_any_call_witness :
  ValidatePipeAddress sampleUnicodeLower sampleParseIP "\\.\pipe" <> None /\
  fst (Listen sampleErrnoText sampleUnicodeLower sampleParseIP sampleEINVAL
         "\\.\pipe" (inl 7)) = [].
Proof.
  assert (Hbad : ValidatePipeAddress sampleUnicodeLower sampleParseIP "\\.\pipe"
                 <> None) by discriminate.
  split; [exact Hbad|].
  exact (proj1 (proj2 (proj2
           (Listen_refuses_bad_address_before_any_call sampleErrnoText
              sampleUnicodeLower sampleParseIP sampleEINVAL "\\.\pipe" true
              0 0 0 0 0 0 None (inl 7) (or_introl Hbad))))).
Defined.

(** X13 at work: Listen on the sample pipe, then Accept. *)
Lemma Listen_then_Accept_connects_on_the_first_instance_witness :
  ValidatePipeAddress sampleUnicodeLower sampleParseIP samplePipe = None /\
  Go.hasNUL samplePipe = false /\
  7 <> 0 /\
  clientReady sampleReadyClient 10 /\
  exists l0 tr l',
    fst (Listen sampleErrnoText sampleUnicodeLower sampleParseIP sampleEINVAL
           samplePipe (inl 7))
    = [EvCreateNamedPipe samplePipe listenMode Windows.PIPE_TYPE_BYTE
         Windows.PIPE_UNLIMITED_INSTANCES 512 512 0 None] /\
    Accept sampleErrnoText sampleEINVAL 1 (Some l0) (fun _ => sampleReadyClient)
    = Some (tr, Returned (Some l', inl (mkPipeConn 7 samplePipe None None))).
Proof.
  assert (Hh : 7 <> 0) by discriminate.
  assert (Hready : clientReady sampleReadyClient 10).
  { split; [left; reflexivity|]. split; [eexists; reflexivity|reflexivity]. }
  split; [reflexivity|]. split; [reflexivity|]. split; [exact Hh|].
  split; [exact Hready|].
  destruct (Listen_then_Accept_connects_on_the_first_instance sampleErrnoText
              sampleUnicodeLower sampleParseIP sampleEINVAL samplePipe 7 10
              (fun _ => sampleReadyClient) eq_refl eq_refl Hh Hready)
    as (l0 & tr & l' & E1 & _ & _ & E2 & _).
  exists l0, tr, l'. split; [rewrite E1; reflexivity|exact E2].
Defined.

(** X14 at work: the event 9 of a read that completes after a wait. *)
Lemma Read_Write_release_the_event_on_every_return_witness :
  io_event samplePendingOS = inl 9 /\
  released (fst (Read sampleErrnoText (sampleConn None) sampleBuffer
                   samplePendingOS)) = [9].
Proof.
  split; [reflexivity|].
  exact (proj1 (proj1 (Read_Write_release_the_event_on_every_return
                         sampleErrnoText (sampleConn None) sampleBuffer
                         samplePendingOS) 9 eq_refl)).
Defined.

(** X15 at work: a write deadline at instant 15, the clock at 10, the
    completion at 20. *)
Lemma Write_times_out_only_when_deadline_is_ahead_witness :
  writeDeadline (sampleWriter (Some 15)) = Some 15 /\
  io_now samplePendingOS < 15 /\
  io_event samplePendingOS = inl 9 /\
  isPending (err (issued samplePendingOS)) = true /\
  io_completion samplePendingOS = Some (20, mkWaitOS None 3 None) /\
  15 < 20 /\
  snd (Write sampleErrnoText (sampleWriter (Some 15)) sampleBuffer
         samplePendingOS)
  = Returned (0, Some (PipeErr (timeout samplePipe))).
Proof.
  assert (Hahead : io_now samplePendingOS < 15) by (simpl; lia).
  assert (Hlate : 15 < 20) by lia.
  split; [reflexivity|]. split; [exact Hahead|]. split; [reflexivity|].
  split; [reflexivity|]. split; [reflexivity|]. split; [exact Hlate|].
  apply (proj2 (Write_times_out_only_when_deadline_is_ahead sampleErrnoText
                  (sampleWriter (Some 15)) sampleBuffer samplePendingOS)
           15 9 eq_refl Hahead eq_refl eq_refl).
  right. exists 20, (mkWaitOS None 3 None). split; [reflexivity|exact Hlate].
Defined.

(** X16 at work: a read deadline at instant 30, the completion at 20. *)
Lemma deadline_after_completion_changes_no_result_witness :
  io_completion samplePendingOS = Some (20, mkWaitOS None 3 None) /\
  20 < 30 /\
  30 - io_now samplePendingOS <= Go.maxDuration /\
  readDeadline (sampleConn (Some 30)) = Some 30 /\
  snd (Read sampleErrnoText (sampleConn (Some 30)) sampleBuffer samplePendingOS)
  = snd (Read sampleErrnoText (noDeadline (sampleConn (Some 30))) sampleBuffer
           samplePendingOS).
Proof.
  assert (Hlt : 20 < 30) by lia.
  assert (Hmax : 30 - io_now samplePendingOS <= Go.maxDuration)
    by (vm_compute; discriminate).
  split; [reflexivity|]. split; [exact Hlt|]. split; [exact Hmax|].
  split; [reflexivity|].
  exact (proj1 (proj1 (deadline_after_completion_changes_no_result
                         sampleErrnoText (sampleConn (Some 30)) sampleBuffer
                         samplePendingOS 30 20 (mkWaitOS None 3 None)
                         eq_refl Hlt Hmax) eq_refl)).
Defined.

(** X17 at work: SetDeadline with the zero time, the clock at 10. *)
Lemma SetDeadline_not_ahead_means_no_deadline_witness :
  Go.zeroTime <= io_now sampleNeverOS /\
  timedOut
    (snd (Read sampleErrnoText (fst (SetDeadline sampleErrnoText
                                       (sampleConn None) Go.zeroTime))
            sampleBuffer sampleNeverOS)) = false.
Proof.
  assert (Hz : Go.zeroTime <= io_now sampleNeverOS) by (vm_compute; discriminate).
  split; [exact Hz|].
  destruct (SetDeadline_not_ahead_means_no_deadline sampleErrnoText
              (sampleConn None) Go.zeroTime sampleBuffer sampleNeverOS Hz)
    as (_ & _ & H & _).
  exact H.
Defined.

(** X18 at work: a wait that leaves no error, then CreateFile. *)
Lemma dial_connects_exactly_after_a_clean_wait_witness :
  Go.hasNUL samplePipe = false /\
  wnp_lasterr (sampleDialOS 0 0%nat) = 0 /\
  In (EvCreateFile samplePipe)
     (fst (dial sampleErrnoText sampleEINVAL samplePipe 4294967295
             (sampleDialOS 0 0%nat))).
Proof.
  split; [reflexivity|]. split; [reflexivity|].
  apply (proj2 (proj1 (proj2 (dial_connects_exactly_after_a_clean_wait
                                sampleErrnoText sampleEINVAL samplePipe
                                4294967295 (sampleDialOS 0 0%nat))))).
  split; reflexivity.
Defined.

(** X19 at work: a duration of zero. *)
Lemma DialTimeout_decides_in_one_attempt_witness :
  sampleClock 0 + 0 <= sampleClock 1 /\
  DialTimeout sampleErrnoText sampleEINVAL 1 samplePipe 0 (sampleDialOS 0)
    sampleClock
  = Some ([], inr (PipeErr (dialTimedOut samplePipe))).
Proof.
  assert (Hpast : sampleClock 0 + 0 <= sampleClock 1)
    by (vm_compute; discriminate).
  split; [exact Hpast|].
  destruct (DialTimeout_decides_in_one_attempt sampleErrnoText sampleEINVAL 0
              samplePipe 0 (sampleDialOS 0) sampleClock)
    as (tr & r & E & _ & _ & H & _).
  destruct (H Hpast) as [-> ->]. exact E.
Defined.

(** X20 at work: 200ms, of which one has passed. *)
Lemma DialTimeout_waits_for_the_time_left_witness :
  Go.hasNUL samplePipe = false /\
  sampleClock 1 < sampleClock 0 + 200 * Go.Millisecond /\
  sampleClock 0 + 200 * Go.Millisecond - sampleClock 1 < 2 ^ 32 * Go.Millisecond /\
  exists millis tr r,
    DialTimeout sampleErrnoText sampleEINVAL 1 samplePipe (200 * Go.Millisecond)
      (sampleDialOS 0) sampleClock = Some (tr, r) /\
    attempts tr = [EvWaitNamedPipe samplePipe millis] /\
    millis * Go.Millisecond <= 199 * Go.Millisecond.
Proof.
  assert (H1 : sampleClock 1 < sampleClock 0 + 200 * Go.Millisecond)
    by (vm_compute; reflexivity).
  assert (H2 : sampleClock 0 + 200 * Go.Millisecond - sampleClock 1
               < 2 ^ 32 * Go.Millisecond) by (vm_compute; reflexivity).
  split; [reflexivity|]. split; [exact H1|]. split; [exact H2|].
  destruct (DialTimeout_waits_for_the_time_left sampleErrnoText sampleEINVAL 0
              samplePipe (200 * Go.Millisecond) (sampleDialOS 0) sampleClock
              eq_refl H1 H2)
    as (millis & tr & r & E & Ha & _ & Hle & _).
  exists millis, tr, r. split; [exact E|]. split; [exact Ha|exact Hle].
Defined.

(** X21 at work: the connection of a Dial that succeeds. *)
Lemma dialed_connection_has_no_deadline_witness :
  Dial sampleErrnoText sampleEINVAL 1 samplePipe (sampleDialOS 0)
  = Some ([EvWaitNamedPipe samplePipe 4294967295; EvCreateFile samplePipe],
          inl (mkPipeConn 0 samplePipe None None)) /\
  timedOut
    (snd (Read sampleErrnoText (mkPipeConn 0 samplePipe None None) sampleBuffer
            sampleNeverOS)) = false.
Proof.
  split; [reflexivity|].
  destruct (dialed_connection_has_no_deadline sampleErrnoText sampleEINVAL 1
              samplePipe 0 (sampleDialOS 0) sampleClock _ _
              (or_introl eq_refl))
    as (_ & _ & _ & H).
  exact (proj1 (H sampleBuffer sampleNeverOS)).
Defined.

(** X22 at work: the instance 7 of a client who left at once. *)
Lemma AcceptPipe_drops_the_instance_of_a_failed_connect_witness :
  l_addr sampleListener <> "" /\
  closed sampleListener = false /\
  idle sampleListener /\
  AcceptPipe sampleErrnoText sampleEINVAL (Some sampleListener)
    (call_os sampleGoneClient) (fun x => x) None
  = ([EvCreateEvent; EvConnectNamedPipe 7; EvCloseHandle 9],
     Returned (Some (mkPipeListener samplePipe 0 false 0 None),
               inr (Errno Windows.ERROR_NO_DATA))) /\
  connectedHandles [EvCreateEvent; EvConnectNamedPipe 7; EvCloseHandle 9] = [7] /\
  exists event,
    ac_event (call_os sampleGoneClient) = inl event /\
    released [EvCreateEvent; EvConnectNamedPipe 7; EvCloseHandle 9] = [event].
Proof.
  assert (Ha : l_addr sampleListener <> "") by discriminate.
  assert (Hi : idle sampleListener) by (split; reflexivity).
  split; [exact Ha|]. split; [reflexivity|]. split; [exact Hi|].
  split; [reflexivity|]. split; [reflexivity|].
  exact (proj1 (AcceptPipe_drops_the_instance_of_a_failed_connect
                  sampleErrnoText sampleEINVAL sampleListener
                  (call_os sampleGoneClient) None _ _ _ 7
                  Ha eq_refl Hi eq_refl eq_refl)).
Defined.
